(** * StockAnalysis: acquisition and classification pipeline

    A shallow embedding of [data_manager.py] and [data_analysis.py].

    Numbers.  A Python/NumPy [float] is modelled as an extended real:
    a finite real number, one of the two infinities, or NaN.  Arithmetic on
    finite values is exact real arithmetic: rounding, overflow, underflow
    and the sign of zero are not modelled.  Everything the code decides by
    a comparison ([r2 >= r2_threshold], [slope > 0], missing values, the
    input validation of scikit-learn) is kept.  The statements below are
    about which branch the code takes, which exception it raises and what
    it leaves unchanged; where one gives the value of a computed number,
    it is the value in exact arithmetic, which the 64-bit result
    approximates.

    Price histories.  In current versions of yfinance [yf.download]
    returns a frame whose columns carry two levels, the price field and
    the ticker, so that [data[price_column]] is a frame of one column.
    The double index [data.iloc[0][0]] of [determine_cagr] presupposes that
    shape, and the positional reading that pandas 2 gives to an integer key
    on a row; this is the shape in which the pipeline hands a history to
    the analysis.  On a plain series, the type the annotations name, the
    same double index raises.  Both shapes are modelled, see [close_data].

    Effects.  The functions of [data_manager.py] run in a state and
    exception monad over a [World]: the file system, the system clock, the
    answers of the two data providers and the trace of provider calls and
    sleeps.  The analysis pass mutates the records of a list in place; it
    is modelled as a function returning the list as it stands when the
    pass ends, together with the exception that ended it, if any.  Writing
    the chart of a record is taken to succeed.  Console output is not
    modelled. *)

From Stdlib Require Import Reals Lra Lia ZArith.
From stdpp Require Import base option list gmap strings fin_maps.

(** ** Exceptions and results *)

Inductive exn : Type :=
  | ValueError
  | KeyError
  | IndexError
  | ZeroDivisionError
  | OverflowError
  | FileNotFoundError
  | EOFError
  | UnpicklingError
  | ProviderError.

Inductive result (A : Type) : Type :=
  | Ok (a : A)
  | Raise (e : exn).
Arguments Ok {A} a.
Arguments Raise {A} e.

#[global] Instance result_ret : MRet result := fun A a => Ok a.
#[global] Instance result_bind : MBind result := fun A B f m =>
  match m with
  | Ok a => f a
  | Raise e => Raise e
  end.

Definition raises {A} (r : result A) : Prop := exists e, r = Raise e.

(** ** Floating-point values *)

Inductive float : Type :=
  | Fin (x : R)
  | PInf
  | NInf
  | NaN.

Definition is_finite (f : float) : bool :=
  match f with Fin _ => true | _ => false end.

(** [pandas.isna]: only NaN counts as missing, infinities do not. *)
Definition isna (f : float) : bool :=
  match f with NaN => true | _ => false end.

Definition Rleb (x y : R) : bool := if Rle_dec x y then true else false.
Definition Rltb (x y : R) : bool := if Rlt_dec x y then true else false.
Definition Reqb (x y : R) : bool := if Req_dec_T x y then true else false.

(** [a >= b] on floats: false as soon as one side is NaN. *)
Definition fge (a b : float) : bool :=
  match a, b with
  | NaN, _ | _, NaN => false
  | PInf, _ => true
  | _, NInf => true
  | Fin x, Fin y => Rleb y x
  | Fin _, PInf => false
  | NInf, _ => false
  end.

(** [a > b] on floats: false as soon as one side is NaN. *)
Definition fgt (a b : float) : bool :=
  match a, b with
  | NaN, _ | _, NaN => false
  | PInf, PInf => false
  | PInf, _ => true
  | NInf, _ => false
  | Fin x, Fin y => Rltb y x
  | Fin _, NInf => true
  | Fin _, PInf => false
  end.

(** [numpy.log]: -inf at zero and NaN below zero, with a warning only. *)
Definition np_log (f : float) : float :=
  match f with
  | Fin x => if Rlt_dec 0 x then Fin (ln x)
             else if Req_dec_T x 0 then NInf else NaN
  | PInf => PInf
  | NInf => NaN
  | NaN => NaN
  end.

(** [numpy.exp], in exact arithmetic: the overflow to [inf] above 709.78
    and the underflow to 0 are not modelled. *)
Definition np_exp (f : float) : float :=
  match f with
  | Fin x => Fin (exp x)
  | PInf => PInf
  | NInf => Fin 0
  | NaN => NaN
  end.

(** [Series.dropna]. *)
Definition dropna (data : list float) : list float :=
  filter (fun f => isna f = false) data.

(** [numpy.arange(n)]. *)
Definition np_arange (n : nat) : list Z := Z.of_nat <$> seq 0 n.

(** ** Least squares, as scikit-learn provides it *)

Definition Rsum (l : list R) : R := foldr Rplus 0%R l.

Definition mean (l : list R) : R := (Rsum l / INR (length l))%R.

(** The finite values of an array, or [None] when a NaN or an infinity is
    among them. *)
Definition finite_values (l : list float) : option (list R) :=
  mapM (fun f => match f with Fin x => Some x | _ => None end) l.

(** Sum of squared deviations and of cross deviations. *)
Definition sq_dev (xs : list R) : R :=
  Rsum ((fun x => (x - mean xs) * (x - mean xs))%R <$> xs).

Definition cross_dev (xs ys : list R) : R :=
  Rsum (zip_with (fun x y => (x - mean xs) * (y - mean ys))%R xs ys).

Record LinearRegression : Type := {
  coef_ : R;
  intercept_ : R
}.

(** [LinearRegression().fit(X, y)] for one feature.  Input validation
    raises [ValueError] on an empty array and on NaN or infinite entries.
    The fit centres both variables; when the centred feature is all zero
    (a single sample) the least-squares solution of minimum norm has
    coefficient 0. *)
Definition LinearRegression_fit (X : list Z) (y : list float)
  : result LinearRegression :=
  match finite_values y with
  | None => Raise ValueError
  | Some ys =>
    if bool_decide (length X = length ys) then
      match ys with
      | [] => Raise ValueError
      | _ :: _ =>
        let xs := IZR <$> X in
        let sxx := sq_dev xs in
        let slope := if Req_dec_T sxx 0 then 0%R
                     else (cross_dev xs ys / sxx)%R in
        Ok {| coef_ := slope;
              intercept_ := (mean ys - slope * mean xs)%R |}
      end
    else Raise ValueError
  end.

(** [model.predict(X)]. *)
Definition predict (model : LinearRegression) (X : list Z) : list float :=
  (fun x => Fin (coef_ model * IZR x + intercept_ model)%R) <$> X.

(** Residual sum of squares. *)
Definition ss_res (y_true y_pred : list R) : R :=
  Rsum (zip_with (fun y p => (y - p) * (y - p))%R y_true y_pred).

(** [sklearn.metrics.r2_score(y_true, y_pred)] with its default
    [force_finite=True]: NaN (and a warning) for fewer than two samples;
    1.0 when the residual sum is zero, even over a constant target; 0.0
    when only the total sum of squares is zero. *)
Definition r2_score (y_true y_pred : list float) : result float :=
  match finite_values y_true, finite_values y_pred with
  | Some ys, Some ps =>
    if bool_decide (length ys = length ps) then
      if bool_decide (length ps < 2)%nat then Ok NaN
      else
        let numerator := ss_res ys ps in
        let denominator := sq_dev ys in
        if Req_dec_T numerator 0 then Ok (Fin 1)
        else if Req_dec_T denominator 0 then Ok (Fin 0)
        else Ok (Fin (1 - numerator / denominator))
    else Raise ValueError
  | _, _ => Raise ValueError
  end.

(** ** data_analysis.py *)

(** [determine_exp_trend(data, r2_threshold=0.8)]. *)
Definition determine_exp_trend (data : list float) (r2_threshold : float)
  : result (bool * option float * option (list float)) :=
  let data := dropna data in
  let time_index := np_arange (length data) in
  let log_prices := np_log <$> data in
  model ← LinearRegression_fit time_index log_prices;
  let predicted_log_prices := predict model time_index in
  r2 ← r2_score log_prices predicted_log_prices;
  let slope := coef_ model in
  if fge r2 r2_threshold && fgt (Fin slope) (Fin 0) then
    let predicted_prices := np_exp <$> predicted_log_prices in
    Ok (true, Some r2, Some predicted_prices)
  else
    Ok (false, None, None).

Definition default_r2_threshold : float := Fin (8 / 10).

(** True when the real [e] is an integer. *)
Definition is_int (e : R) : bool := Reqb (IZR (Int_part e)) e.

(** [a / b] on NumPy floats: a division by zero yields an infinity or NaN
    and a warning, it does not raise. *)
Definition fdiv (a b : float) : float :=
  match a, b with
  | NaN, _ | _, NaN => NaN
  | Fin x, Fin y =>
      if Req_dec_T y 0 then
        (if Rlt_dec 0 x then PInf else if Rlt_dec x 0 then NInf else NaN)
      else Fin (x / y)
  | Fin _, (PInf | NInf) => Fin 0
  | PInf, Fin y => if Rlt_dec y 0 then NInf else PInf
  | NInf, Fin y => if Rlt_dec y 0 then PInf else NInf
  | (PInf | NInf), (PInf | NInf) => NaN
  end.

(** [a - b] on floats. *)
Definition fsub (a b : float) : float :=
  match a, b with
  | NaN, _ | _, NaN => NaN
  | Fin x, Fin y => Fin (x - y)
  | Fin _, PInf => NInf
  | Fin _, NInf => PInf
  | PInf, PInf => NaN
  | PInf, _ => PInf
  | NInf, NInf => NaN
  | NInf, _ => NInf
  end.

(** [a ** e] for a finite exponent [e], after C's [pow]. *)
Definition fpow (a : float) (e : R) : float :=
  if Req_dec_T e 0 then Fin 1
  else match a with
  | NaN => NaN
  | PInf => if Rlt_dec 0 e then PInf else Fin 0
  | NInf => if Rlt_dec 0 e
            then (if is_int e && Z.odd (Int_part e) then NInf else PInf)
            else Fin 0
  | Fin x =>
      if Rlt_dec 0 x then Fin (Rpower x e)
      else if Req_dec_T x 0 then (if Rlt_dec 0 e then Fin 0 else PInf)
      else if is_int e then Fin (powerRZ x (Int_part e))
      else NaN
  end.

(** Modelled from the spec: the constant [HIST_DATA_YEARS] of the module
    [global_constants], which is not among the sources; the lookback
    window is five years. *)
Definition HIST_DATA_YEARS : Z := 5.

(** The two shapes of a price history: the frame of one column that
    [data[price_column]] is when the columns of the downloaded frame carry
    two levels, and the plain series that the annotations of
    [data_analysis.py] name.  [prices] are the values of the column, in
    the order of the dates. *)
Inductive close_data : Type :=
  | OneColumnFrame (prices : list float)
  | PlainSeries (prices : list float).

(** [x.iloc[i]]: the entry at position [i], a negative position counting
    from the end; [IndexError] outside the axis. *)
Definition iloc {A} (entries : list A) (i : Z) : result A :=
  let n := Z.of_nat (length entries) in
  let position := if (i <? 0)%Z then (n + i)%Z else i in
  if (position <? 0)%Z then Raise IndexError
  else match entries !! Z.to_nat position with
       | Some entry => Ok entry
       | None => Raise IndexError
       end.

(** [row[k]] on a row of a frame, which is a series labelled by the column
    names: pandas up to version 2 takes an integer key that is no label as
    a position (lately with a FutureWarning; version 3 raises [KeyError]
    instead, which is not modelled). *)
Definition row_getitem (row : list float) (k : nat) : result float :=
  match row !! k with
  | Some price => Ok price
  | None => Raise IndexError
  end.

(** [determine_cagr(data, years)].  On a frame of one column
    [data.iloc[0]] is the first row and [data.iloc[0][0]] its only price;
    [data.iloc[0]] raises [IndexError] on an empty frame, and [1/years]
    raises [ZeroDivisionError] for [years = 0].  On a plain series
    [data.iloc[0]] is a number, and indexing it raises [IndexError].  The
    history is the one stored in the record, missing values included. *)
Definition determine_cagr (data : close_data) (years : R) : result float :=
  match data with
  | OneColumnFrame prices =>
      let rows := (fun price => [price]) <$> prices in
      first_row ← iloc rows 0;
      initial_price ← row_getitem first_row 0;
      last_row ← iloc rows (-1);
      final_price ← row_getitem last_row 0;
      if Req_dec_T years 0 then Raise ZeroDivisionError
      else Ok (fsub (fpow (fdiv final_price initial_price) (1 / years))
                    (Fin 1))
  | PlainSeries prices =>
      _ ← iloc prices 0;
      Raise IndexError
  end.

Arguments determine_cagr : simpl never.

(** Values found in the issuer's attribute dictionary. *)
Inductive pyval : Type :=
  | PyStr (s : string)
  | PyInt (n : Z)
  | PyFloat (f : float)
  | PyBool (b : bool)
  | PyNone.

(** The dataclass [SymbolData] of [data_manager.py].  [symbol_hist_data]
    holds the prices of the one-column frame that
    [get_historical_close_data] returns. *)
Record SymbolData : Type := mkSymbolData {
  symbol_info : gmap string pyval;
  symbol_hist_data : list float;
  r2 : float;
  cagr : float
}.

(** The figure that [save_plot_img] writes to
    [charts/<ticker_symbol>_chart.png]. *)
Record chart : Type := {
  chart_title : pyval;
  chart_actual : list float;
  chart_trend : list float
}.

(** [save_plot_img(data, ticker_symbol, predicted_prices)]: the trend line
    is plotted against the index of [data], and matplotlib raises
    [ValueError] when the two do not have the same length.  The model
    returns the figure in place of its path.  Writing the figure is taken
    to succeed: the file system is not an input of the analysis here, so
    an error of [os.makedirs] or [savefig] (a ticker with a [/] in it, a
    directory that cannot be written) is not produced by the model.  The
    statements on a classified record are therefore made for the case that
    its analysis runs to the end, and none of them says when it does. *)
Definition save_plot_img (data : list float) (ticker_symbol : pyval)
    (predicted_prices : list float) : result chart :=
  if bool_decide (length data = length predicted_prices) then
    Ok {| chart_title := ticker_symbol;
          chart_actual := data;
          chart_trend := predicted_prices |}
  else Raise ValueError.

(** [d[key]] on a dict. *)
Definition getitem {V} (d : gmap string V) (key : string) : result V :=
  match d !! key with
  | Some v => Ok v
  | None => Raise KeyError
  end.

Definition set_r2 (v : float) (sd : SymbolData) : SymbolData :=
  mkSymbolData (symbol_info sd) (symbol_hist_data sd) v (cagr sd).

Definition set_cagr (v : float) (sd : SymbolData) : SymbolData :=
  mkSymbolData (symbol_info sd) (symbol_hist_data sd) (r2 sd) v.

(** The body of the loop of [analyse_symbols], run on one record: the
    record as the body leaves it, and the exception that interrupted the
    body, if any.  When [is_exponential] is true the two other components
    of the tuple are never [None], so the defaults below are not reached.
    The history reaches [determine_cagr] as the frame of one column that
    [get_historical_close_data] stored in the record. *)
Definition analyse_symbols_body (symbol_data : SymbolData)
  : SymbolData * option exn :=
  match determine_exp_trend (symbol_hist_data symbol_data)
                            default_r2_threshold with
  | Raise e => (symbol_data, Some e)
  | Ok (is_exponential, r2, predicted_values) =>
    if is_exponential then
      match
        ticker ← getitem (symbol_info symbol_data) "symbol";
        save_plot_img (symbol_hist_data symbol_data) ticker
                      (default [] predicted_values)
      with
      | Raise e => (symbol_data, Some e)
      | Ok _ =>
        let symbol_data := set_r2 (default NaN r2) symbol_data in
        match determine_cagr (OneColumnFrame (symbol_hist_data symbol_data))
                             (IZR HIST_DATA_YEARS) with
        | Raise e => (symbol_data, Some e)
        | Ok c => (set_cagr c symbol_data, None)
        end
      end
    else (symbol_data, None)
  end.

(** [analyse_symbols(symbol_data_list)]: the records are mutated in place,
    one after the other; an exception ends the pass and leaves the
    remaining records as they were.  What the body writes to a record
    depends on that record's own price history alone, which the body never
    changes, so a list of values stands for the list of objects. *)
Fixpoint analyse_symbols (symbol_data_list : list SymbolData)
  : list SymbolData * option exn :=
  match symbol_data_list with
  | [] => ([], None)
  | symbol_data :: rest =>
    match analyse_symbols_body symbol_data with
    | (symbol_data', Some e) => (symbol_data' :: rest, Some e)
    | (symbol_data', None) =>
        let (rest', out) := analyse_symbols rest in
        (symbol_data' :: rest', out)
    end
  end.

(** ** The world of data_manager.py *)

(** A pandas [DataFrame] as the providers return it: a number of rows and
    columns of prices, named by the price field (the first level of the
    column labels). *)
Record DataFrame : Type := {
  df_rows : nat;
  df_columns : gmap string (list float)
}.

(** [DataFrame.empty]: one of the two axes has length 0. *)
Definition df_empty (data : DataFrame) : bool :=
  bool_decide (df_rows data = 0%nat) || bool_decide (df_columns data = ∅).

(** What a file holds: the pickle of a list of records, or content on
    which [pickle.load] raises [e] ([EOFError] on an empty or truncated
    file, [UnpicklingError] on bytes that are no pickle).  The pickle of
    an object that is not a list of records, which [pickle.load] would
    return as it is, has no counterpart here: the cache file is only
    written by [cache_symbol_data]. *)
Inductive file : Type :=
  | Pickle (symbol_data_list : list SymbolData)
  | Unreadable (e : exn).

(** The calendar year of [datetime.now()]: the clock of a running system
    is past the Unix epoch, and [datetime] has no year after 9999. *)
Record Clock : Type := {
  clock_year : Z;
  clock_year_range : (1970 <=? clock_year)%Z && (clock_year <=? 9999)%Z = true
}.

(** What one run finds around it: the system clock, the outcome of
    building a [yf.Ticker] object (no request is sent), and the answers
    of the symbol directory (Finnhub) and of the market-data provider
    (Yahoo Finance). *)
Record Provider : Type := {
  clock : Clock;
  yf_Ticker : string -> result unit;
  stock_symbols : result (list (gmap string string));
  ticker_history : string -> result DataFrame;
  ticker_get_info : string -> result (gmap string pyval);
  yf_download : string -> Z -> result DataFrame
}.

Inductive event : Type :=
  | EvStockSymbols
  | EvHistory (ticker_symbol : string)
  | EvGetInfo (ticker_symbol : string)
  | EvDownload (ticker_symbol : string) (period_years : Z)
  | EvSleep (seconds : Z).

Record World : Type := mkWorld {
  provider : Provider;
  files : gmap string file;
  trace : list event
}.

(** State and exception monad: a raised exception keeps the world as it
    was when it was raised. *)
Record M (A : Type) : Type := MkM { run : World -> result A * World }.
Arguments MkM {A} run.
Arguments run {A} m w.

#[global] Instance M_ret : MRet M := fun A a => MkM (fun w => (Ok a, w)).
#[global] Instance M_bind : MBind M := fun A B f m => MkM (fun w =>
  match run m w with
  | (Ok a, w') => run (f a) w'
  | (Raise e, w') => (Raise e, w')
  end).

Definition lift {A} (r : result A) : M A := MkM (fun w => (r, w)).

Definition emit (ev : event) : M unit :=
  MkM (fun w => (Ok tt, mkWorld (provider w) (files w) (trace w ++ [ev]))).

(** [try: body except Exception: handler]. *)
Definition try_except {A} (body : M A) (handler : M A) : M A :=
  MkM (fun w =>
    match run body w with
    | (Ok a, w') => (Ok a, w')
    | (Raise _, w') => run handler w'
    end).

Definition sleep (seconds : Z) : M unit := emit (EvSleep seconds).

Definition write_file (name : string) (content : file) : M unit :=
  MkM (fun w => (Ok tt, mkWorld (provider w) (<[name := content]> (files w))
                                (trace w))).

(** [finnhub_client.get_symbols()]. *)
Definition get_symbols : M (list (gmap string string)) :=
  _ ← emit EvStockSymbols;
  MkM (fun w => (stock_symbols (provider w), w)).

(** [datetime.now().date()], of which only the year matters below. *)
Definition now : M Z := MkM (fun w => (Ok (clock_year (clock (provider w))), w)).

(** [yf.Ticker(ticker_symbol)]. *)
Definition new_ticker (ticker_symbol : string) : M unit :=
  MkM (fun w => (yf_Ticker (provider w) ticker_symbol, w)).

Definition history (ticker_symbol : string) : M DataFrame :=
  _ ← emit (EvHistory ticker_symbol);
  MkM (fun w => (ticker_history (provider w) ticker_symbol, w)).

Definition get_info (ticker_symbol : string) : M (gmap string pyval) :=
  _ ← emit (EvGetInfo ticker_symbol);
  MkM (fun w => (ticker_get_info (provider w) ticker_symbol, w)).

Definition download (ticker_symbol : string) (period_years : Z)
  : M DataFrame :=
  _ ← emit (EvDownload ticker_symbol period_years);
  MkM (fun w => (yf_download (provider w) ticker_symbol period_years, w)).

(** ** data_manager.py *)

Definition CACHE_FILENAME : string := "cache.pkl".
Definition REQUEST_DELAY : Z := 2.

(** [cache_symbol_data(symbol_data_list)]: mode ["wb"] truncates the file. *)
Definition cache_symbol_data (symbol_data_list : list SymbolData) : M unit :=
  write_file CACHE_FILENAME (Pickle symbol_data_list).

(** [load_cached_symbol_data()]. *)
Definition load_cached_symbol_data : M (list SymbolData) := MkM (fun w =>
  match files w !! CACHE_FILENAME with
  | None => (Raise FileNotFoundError, w)
  | Some (Pickle symbol_data_list) => (Ok symbol_data_list, w)
  | Some (Unreadable e) => (Raise e, w)
  end).

(** [validate_and_get_info(ticker_symbol)]: [(True, info)] is [Some info],
    [(False, None)] is [None]. *)
Definition validate_and_get_info (ticker_symbol : string)
  : M (option (gmap string pyval)) :=
  try_except
    (_ ← new_ticker ticker_symbol;
     _ ← sleep REQUEST_DELAY;
     data ← history ticker_symbol;
     if df_empty data then mret None
     else info ← get_info ticker_symbol; mret (Some info))
    (mret None).

(** The year of [today - relativedelta(years=period_years)]: the same day
    [period_years] years back.  [date.replace] raises [ValueError] for a
    year outside 1..9999, and [OverflowError] for one that does not fit a
    C [int]. *)
Definition years_back (today_year period_years : Z) : result Z :=
  let start_year := (today_year - period_years)%Z in
  if (1 <=? start_year)%Z && (start_year <=? 9999)%Z then Ok start_year
  else if (- 2 ^ 31 <=? start_year)%Z && (start_year <? 2 ^ 31)%Z
       then Raise ValueError
       else Raise OverflowError.

(** [get_historical_close_data(ticker_symbol, period_years)]: the two dates
    are computed before the [try], so that an exception of theirs is not
    caught. *)
Definition get_historical_close_data (ticker_symbol : string)
    (period_years : Z) : M (option (list float)) :=
  today ← now;
  _ ← lift (years_back today period_years);
  try_except
    (data ← download ticker_symbol period_years;
     _ ← sleep REQUEST_DELAY;
     if df_empty data then lift (Raise ValueError)
     else
       let price_column :=
         if bool_decide (is_Some (df_columns data !! "Adj Close"))
         then "Adj Close" else "Close" in
       prices ← lift (getitem (df_columns data) price_column);
       mret (Some prices))
    (mret None).

(** The loop of [get_and_cache_data], from the candidate it is about to
    examine, with the list and the counter [i] built so far. *)
Fixpoint get_and_cache_data_loop (num_symbols : Z)
    (symbols : list (gmap string string))
    (symbol_data_list : list SymbolData) (i : Z) : M (list SymbolData) :=
  match symbols with
  | [] => mret symbol_data_list
  | symbol :: symbols =>
    if (i =? num_symbols)%Z then mret symbol_data_list
    else
      symbol_string ← lift (getitem symbol "displaySymbol");
      v ← validate_and_get_info symbol_string;
      match v with
      | Some symbol_info =>
        h ← get_historical_close_data symbol_string HIST_DATA_YEARS;
        match h with
        | Some hist_data =>
          let symbol_data :=
            mkSymbolData symbol_info hist_data (Fin 0) (Fin 0) in
          get_and_cache_data_loop num_symbols symbols
            (symbol_data_list ++ [symbol_data]) (i + 1)%Z
        | None =>
          get_and_cache_data_loop num_symbols symbols symbol_data_list i
        end
      | None =>
        get_and_cache_data_loop num_symbols symbols symbol_data_list i
      end
  end.

(** [get_and_cache_data(num_symbols)]. *)
Definition get_and_cache_data (num_symbols : Z) : M (list SymbolData) :=
  symbols ← get_symbols;
  symbol_data_list ← get_and_cache_data_loop num_symbols symbols [] 0%Z;
  _ ← cache_symbol_data symbol_data_list;
  mret symbol_data_list.

(** [get_symbol_data(read_from_cache, num_symbols)]. *)
Definition get_symbol_data (read_from_cache : bool) (num_symbols : Z)
  : M (list SymbolData) :=
  if read_from_cache then load_cached_symbol_data
  else get_and_cache_data num_symbols.

(** ** What a run does, in closed form *)

Definition add_trace (evs : list event) (w : World) : World :=
  mkWorld (provider w) (files w) (trace w ++ evs).

(** The outcome of validating [ticker_symbol] against the answers [P]. *)
Definition validated (P : Provider) (ticker_symbol : string)
  : option (gmap string pyval) :=
  match yf_Ticker P ticker_symbol with
  | Ok _ =>
    match ticker_history P ticker_symbol with
    | Ok data =>
      if df_empty data then None
      else match ticker_get_info P ticker_symbol with
           | Ok info => Some info
           | Raise _ => None
           end
    | Raise _ => None
    end
  | Raise _ => None
  end.

Definition validate_events (P : Provider) (ticker_symbol : string)
  : list event :=
  match yf_Ticker P ticker_symbol with
  | Ok _ =>
    [EvSleep REQUEST_DELAY; EvHistory ticker_symbol] ++
    match ticker_history P ticker_symbol with
    | Ok data => if df_empty data then [] else [EvGetInfo ticker_symbol]
    | Raise _ => []
    end
  | Raise _ => []
  end.

(** The outcome of fetching the price history of [ticker_symbol]. *)
Definition fetched (P : Provider) (ticker_symbol : string)
  : option (list float) :=
  match yf_download P ticker_symbol HIST_DATA_YEARS with
  | Ok data =>
    if df_empty data then None
    else match df_columns data !! "Adj Close" with
         | Some prices => Some prices
         | None => df_columns data !! "Close"
         end
  | Raise _ => None
  end.

Definition fetch_events (P : Provider) (ticker_symbol : string)
  : list event :=
  [EvDownload ticker_symbol HIST_DATA_YEARS] ++
  match yf_download P ticker_symbol HIST_DATA_YEARS with
  | Ok _ => [EvSleep REQUEST_DELAY]
  | Raise _ => []
  end.

(** The record a candidate yields, when it validates and its history can
    be fetched. *)
Definition usable (P : Provider) (symbol : gmap string string)
  : option SymbolData :=
  symbol_string ← symbol !! "displaySymbol";
  symbol_info ← validated P symbol_string;
  hist_data ← fetched P symbol_string;
  Some (mkSymbolData symbol_info hist_data (Fin 0) (Fin 0)).

(** The provider calls and sleeps spent on one candidate. *)
Definition candidate_events (P : Provider) (symbol : gmap string string)
  : list event :=
  match symbol !! "displaySymbol" with
  | Some symbol_string =>
    validate_events P symbol_string ++
    match validated P symbol_string with
    | Some _ => fetch_events P symbol_string
    | None => []
    end
  | None => []
  end.

(** The candidates the loop examines when [k] more records are wanted. *)
Fixpoint examined (P : Provider) (k : nat)
    (symbols : list (gmap string string)) : list (gmap string string) :=
  match k, symbols with
  | O, _ | _, [] => []
  | S k', symbol :: symbols =>
    symbol ::
      examined P (match usable P symbol with Some _ => k' | None => k end)
               symbols
  end.

Definition has_display_symbol (symbol : gmap string string) : Prop :=
  is_Some (symbol !! "displaySymbol").

(** ** Vocabulary of the statements *)

(** A positive finite price. *)
Definition is_positive (f : float) : Prop :=
  match f with Fin x => (0 < x)%R | _ => False end.

(** A price at or below zero. *)
Definition is_nonpositive (f : float) : Prop :=
  match f with Fin x => (x <= 0)%R | NInf => True | _ => False end.

(** The analysis pass classifies the series as exponential. *)
Definition classified_exponential (data : list float) : Prop :=
  exists r2 predicted_values,
    determine_exp_trend data default_r2_threshold =
    Ok (true, r2, predicted_values).

(** ** Sample records *)

(** Two rising prices: a perfect exponential fit. *)
Definition rising_record : SymbolData :=
  mkSymbolData {["symbol" := PyStr "A"]} [Fin 1; Fin 2] (Fin 0) (Fin 0).

(** A constant price. *)
Definition flat_record : SymbolData :=
  mkSymbolData {["symbol" := PyStr "C"]} [Fin 5; Fin 5] (Fin 0) (Fin 0).

(** A single observation. *)
Definition single_record : SymbolData :=
  mkSymbolData {["symbol" := PyStr "S"]} [Fin 5] (Fin 0) (Fin 0).

(** Only missing observations. *)
Definition missing_record : SymbolData :=
  mkSymbolData {["symbol" := PyStr "M"]} [NaN] (Fin 0) (Fin 0).

(** A price below zero. *)
Definition negative_record : SymbolData :=
  mkSymbolData {["symbol" := PyStr "N"]} [Fin 1; Fin (-1)] (Fin 0) (Fin 0).

(** ** A sample run *)

Definition one_column (prices : list float) : DataFrame :=
  {| df_rows := length prices; df_columns := {["Close" := prices]} |}.

Definition no_data : DataFrame := {| df_rows := 0; df_columns := ∅ |}.

Definition sample_symbols : list (gmap string string) :=
  [ {["displaySymbol" := "A"]};
    {["displaySymbol" := "B"]};
    {["displaySymbol" := "C"]} ].

Definition sample_clock : Clock :=
  {| clock_year := 2025; clock_year_range := eq_refl |}.

(** Three candidates: A is listed and rising, B is not listed, C is listed
    and flat.  A ticker object cannot be built from the empty string. *)
Definition sample_provider : Provider := {|
  clock := sample_clock;
  yf_Ticker := fun ticker_symbol =>
    if String.eqb ticker_symbol "" then Raise ValueError else Ok tt;
  stock_symbols := Ok sample_symbols;
  ticker_history := fun ticker_symbol =>
    if String.eqb ticker_symbol "B" then Ok no_data
    else Ok (one_column [Fin 1]);
  ticker_get_info := fun ticker_symbol =>
    Ok {["symbol" := PyStr ticker_symbol]};
  yf_download := fun ticker_symbol _ =>
    if String.eqb ticker_symbol "A" then Ok (one_column [Fin 1; Fin 2])
    else Ok (one_column [Fin 5; Fin 5])
|}.

Definition sample_world : World := mkWorld sample_provider ∅ [].

(** ** Vocabulary of the further properties *)

(** [a != b] on floats: true as soon as one side is NaN. *)
Definition fne (a b : float) : bool :=
  match a, b with
  | NaN, _ | _, NaN => true
  | Fin x, Fin y => negb (Reqb x y)
  | PInf, PInf | NInf, NInf => false
  | _, _ => true
  end.

(** A record as [get_and_cache_data] builds it, before any analysis. *)
Definition fresh (sd : SymbolData) : Prop :=
  r2 sd = Fin 0 /\ cagr sd = Fin 0.

(** The seconds slept along a trace. *)
Definition sleep_seconds (evs : list event) : Z :=
  foldr (fun ev total =>
           match ev with EvSleep seconds => (seconds + total)%Z
                       | _ => total end) 0%Z evs.

Definition is_call (ev : event) : bool :=
  match ev with EvSleep _ => false | _ => true end.

(** The number of provider calls along a trace. *)
Definition provider_calls (evs : list event) : nat :=
  length (filter (fun ev => is_call ev = true) evs).

(** Every latest-session query of a trace comes right after a sleep of
    [REQUEST_DELAY] seconds. *)
Definition history_paced (evs : list event) : Prop :=
  forall i ticker_symbol,
    evs !! i = Some (EvHistory ticker_symbol) ->
    exists j, i = S j /\ evs !! j = Some (EvSleep REQUEST_DELAY).

(** ** report_generator.py *)

Section Report.

(** [generate_stock_html(ticker_info, r2, cagr)]: the page of one
    record, or [None] when rendering it raises.  The page is built with
    the functions of the module [formatting] and the file
    [template.html], none of which is among the sources, so the renderer
    is a parameter here. *)
Variable generate_stock_html :
  gmap string pyval -> float -> float -> option string.

(** The loop of [generate_report], from the record it is about to
    examine, with the HTML accumulated so far. *)
Fixpoint generate_report_loop (symbol_data_list : list SymbolData)
    (report_html : string) : option string :=
  match symbol_data_list with
  | [] => Some report_html
  | symbol_data :: rest =>
    if fne (r2 symbol_data) (Fin 0) then
      match generate_stock_html (symbol_info symbol_data)
              (r2 symbol_data) (cagr symbol_data) with
      | Some symbol_html =>
          generate_report_loop rest (report_html +:+ symbol_html)
      | None => None
      end
    else generate_report_loop rest report_html
  end.

(** [generate_report(symbol_data_list)], up to the HTML it hands to the
    PDF renderer. *)
Definition generate_report (symbol_data_list : list SymbolData)
  : option string :=
  generate_report_loop symbol_data_list "".

End Report.

(** ** Further sample worlds *)

(** The symbol directory cannot be reached. *)
Definition offline_world : World :=
  mkWorld {| clock := sample_clock;
             yf_Ticker := yf_Ticker sample_provider;
             stock_symbols := Raise ProviderError;
             ticker_history := ticker_history sample_provider;
             ticker_get_info := ticker_get_info sample_provider;
             yf_download := yf_download sample_provider |}
          {[CACHE_FILENAME := Pickle [flat_record]]} [].

(** The second entry of the directory carries no display symbol. *)
Definition malformed_symbols : list (gmap string string) :=
  [ {["displaySymbol" := "A"]}; {["symbol" := "B"]};
    {["displaySymbol" := "C"]} ].

Definition malformed_world : World :=
  mkWorld {| clock := sample_clock;
             yf_Ticker := yf_Ticker sample_provider;
             stock_symbols := Ok malformed_symbols;
             ticker_history := ticker_history sample_provider;
             ticker_get_info := ticker_get_info sample_provider;
             yf_download := yf_download sample_provider |}
          {[CACHE_FILENAME := Pickle [flat_record]]} [].

(** ** Lemmas on the monad and the provider calls *)

Lemma add_trace_nil w : add_trace [] w = w.
Proof. destruct w; unfold add_trace; simpl. by rewrite app_nil_r. Qed.

Lemma add_trace_app evs1 evs2 w :
  add_trace evs2 (add_trace evs1 w) = add_trace (evs1 ++ evs2) w.
Proof. unfold add_trace; simpl. by rewrite app_assoc. Qed.

Lemma provider_add_trace evs w : provider (add_trace evs w) = provider w.
Proof. reflexivity. Qed.

Lemma files_add_trace evs w : files (add_trace evs w) = files w.
Proof. reflexivity. Qed.

Lemma run_bind {A B} (m : M A) (f : A -> M B) w :
  run (m ≫= f) w =
  match run m w with
  | (Ok a, w') => run (f a) w'
  | (Raise e, w') => (Raise e, w')
  end.
Proof. reflexivity. Qed.

Lemma run_emit ev w : run (emit ev) w = (Ok tt, add_trace [ev] w).
Proof. reflexivity. Qed.

Lemma validate_and_get_info_run ticker_symbol w :
  run (validate_and_get_info ticker_symbol) w =
  (Ok (validated (provider w) ticker_symbol),
   add_trace (validate_events (provider w) ticker_symbol) w).
Proof.
  unfold validate_and_get_info, validated, validate_events, try_except,
    new_ticker, sleep, history, get_info, add_trace; simpl.
  destruct (yf_Ticker (provider w) ticker_symbol) as [[]|e0]; simpl.
  2: { destruct w; simpl. by rewrite app_nil_r. }
  destruct (ticker_history (provider w) ticker_symbol) as [data|e]; simpl.
  - destruct (df_empty data); simpl.
    + by rewrite <- !app_assoc.
    + destruct (ticker_get_info (provider w) ticker_symbol); simpl;
        by rewrite <- !app_assoc.
  - by rewrite <- !app_assoc.
Qed.

Lemma years_back_Ok today_year period_years :
  (1 <= today_year - period_years <= 9999)%Z ->
  years_back today_year period_years = Ok (today_year - period_years)%Z.
Proof.
  intros Hrange. unfold years_back.
  replace (1 <=? today_year - period_years)%Z with true
    by (symmetry; apply Z.leb_le; lia).
  replace (today_year - period_years <=? 9999)%Z with true
    by (symmetry; apply Z.leb_le; lia).
  done.
Qed.

Lemma years_back_raises today_year period_years :
  ~ (1 <= today_year - period_years <= 9999)%Z ->
  exists e, years_back today_year period_years = Raise e /\
            (e = ValueError \/ e = OverflowError).
Proof.
  intros Hrange. unfold years_back.
  destruct (1 <=? today_year - period_years)%Z eqn:Hlow;
    destruct (today_year - period_years <=? 9999)%Z eqn:Hhigh; cbn [andb];
    try (apply Z.leb_le in Hlow); try (apply Z.leb_le in Hhigh);
    try (exfalso; lia);
    destruct (_ && _); eauto.
Qed.

Lemma clock_year_bounds (c : Clock) : (1970 <= clock_year c <= 9999)%Z.
Proof.
  destruct c as [y Hy]. cbn. apply andb_true_iff in Hy as [H1 H2].
  apply Z.leb_le in H1. apply Z.leb_le in H2. lia.
Qed.

Lemma get_historical_close_data_unfold ticker_symbol period_years w :
  run (get_historical_close_data ticker_symbol period_years) w =
  match years_back (clock_year (clock (provider w))) period_years with
  | Raise e => (Raise e, w)
  | Ok _ =>
    match yf_download (provider w) ticker_symbol period_years with
    | Raise _ => (Ok None, add_trace [EvDownload ticker_symbol period_years] w)
    | Ok data =>
      (Ok (if df_empty data then None
           else match df_columns data !! "Adj Close" with
                | Some prices => Some prices
                | None => df_columns data !! "Close"
                end),
       add_trace [EvDownload ticker_symbol period_years;
                  EvSleep REQUEST_DELAY] w)
    end
  end.
Proof.
  unfold get_historical_close_data. rewrite !run_bind. unfold now, lift.
  cbn [run].
  destruct (years_back _ period_years) as [start_year|e]; [|done].
  unfold try_except, sleep, download, add_trace, getitem; simpl.
  destruct (yf_download (provider w) ticker_symbol period_years)
    as [data|e]; simpl; [|done].
  rewrite <- !app_assoc; simpl.
  destruct (df_empty data); simpl; [done|].
  destruct (df_columns data !! "Adj Close") as [prices|] eqn:Hadj.
  - rewrite bool_decide_eq_true_2 by eauto. by rewrite Hadj.
  - rewrite bool_decide_eq_false_2 by (intros [? ?]; congruence).
    by destruct (df_columns data !! "Close").
Qed.

Lemma get_historical_close_data_run ticker_symbol w :
  run (get_historical_close_data ticker_symbol HIST_DATA_YEARS) w =
  (Ok (fetched (provider w) ticker_symbol),
   add_trace (fetch_events (provider w) ticker_symbol) w).
Proof.
  rewrite get_historical_close_data_unfold, years_back_Ok.
  2: { pose proof (clock_year_bounds (clock (provider w))).
       unfold HIST_DATA_YEARS. lia. }
  unfold fetched, fetch_events.
  by destruct (yf_download (provider w) ticker_symbol HIST_DATA_YEARS).
Qed.

Lemma get_and_cache_data_loop_run num_symbols symbols :
  forall symbol_data_list i w k,
  Forall has_display_symbol symbols ->
  (i + Z.of_nat k = num_symbols)%Z ->
  run (get_and_cache_data_loop num_symbols symbols symbol_data_list i) w =
  (Ok (symbol_data_list ++
       omap (usable (provider w)) (examined (provider w) k symbols)),
   add_trace (concat (candidate_events (provider w) <$>
                      examined (provider w) k symbols)) w).
Proof.
  induction symbols as [|symbol symbols IH];
    intros acc i w k Hdisp Hk; cbn [get_and_cache_data_loop].
  { destruct k; cbn; by rewrite app_nil_r, add_trace_nil. }
  apply Forall_cons in Hdisp as [[symbol_string Hsym] Hdisp].
  destruct k as [|k'].
  { replace (i =? num_symbols)%Z with true by (symmetry; apply Z.eqb_eq; lia).
    cbn. by rewrite app_nil_r, add_trace_nil. }
  replace (i =? num_symbols)%Z with false by (symmetry; apply Z.eqb_neq; lia).
  rewrite run_bind. unfold lift at 1, getitem at 1. rewrite Hsym.
  cbn [run]. rewrite run_bind, validate_and_get_info_run.
  cbn [examined fmap list_fmap concat].
  assert (Hu : usable (provider w) symbol =
               symbol_info ← validated (provider w) symbol_string;
               hist_data ← fetched (provider w) symbol_string;
               Some (mkSymbolData symbol_info hist_data (Fin 0) (Fin 0)))
    by (unfold usable; by rewrite Hsym).
  unfold candidate_events at 1. rewrite Hsym.
  destruct (validated (provider w) symbol_string) as [symbol_info|].
  - rewrite run_bind, get_historical_close_data_run, provider_add_trace.
    destruct (fetched (provider w) symbol_string) as [hist_data|];
      cbn in Hu; cbn [omap list_omap]; rewrite Hu.
    + rewrite (IH _ _ _ k') by (done || lia).
      rewrite !provider_add_trace, !add_trace_app, <- !app_assoc. done.
    + rewrite (IH _ _ _ (S k')) by (done || lia).
      rewrite !provider_add_trace, !add_trace_app, <- !app_assoc. done.
  - cbn in Hu; cbn [omap list_omap]; rewrite Hu.
    rewrite (IH _ _ _ (S k')) by (done || lia).
    rewrite !provider_add_trace, !add_trace_app, app_nil_r. done.
Qed.

(** ** The candidates examined by the loop *)

Lemma examined_prefix P k symbols :
  exists rest, symbols = examined P k symbols ++ rest.
Proof.
  revert k. induction symbols as [|symbol symbols IH]; intros k.
  - exists []. by destruct k.
  - destruct k as [|k']; cbn [examined].
    + by exists (symbol :: symbols).
    + destruct (IH (match usable P symbol with Some _ => k' | None => S k' end))
        as [rest Hrest].
      exists rest. cbn. by rewrite <- Hrest.
Qed.

Lemma examined_usable P k symbols :
  omap (usable P) (examined P k symbols) = take k (omap (usable P) symbols).
Proof.
  revert k. induction symbols as [|symbol symbols IH]; intros k.
  - by destruct k.
  - destruct k as [|k']; cbn [examined omap list_omap]; [done|].
    destruct (usable P symbol) as [symbol_data|]; cbn; by rewrite IH.
Qed.

Lemma examined_stops P k symbols before symbol after :
  examined P k symbols = before ++ symbol :: after ->
  (length (omap (usable P) before) < k)%nat.
Proof.
  revert k before. induction symbols as [|s symbols IH]; intros k before.
  - destruct k; cbn; intros H; by destruct before.
  - destruct k as [|k']; cbn [examined]; [by destruct before|].
    destruct before as [|b before]; cbn; [lia|].
    intros [= <- H]. apply IH in H.
    cbn. destruct (usable P s); cbn in *; lia.
Qed.

Lemma examined_exhausted P k symbols rest :
  symbols = examined P k symbols ++ rest ->
  rest = [] \/ length (omap (usable P) (examined P k symbols)) = k.
Proof.
  revert k. induction symbols as [|s symbols IH]; intros k.
  - destruct k; cbn; intros <-; by left.
  - destruct k as [|k']; cbn [examined]; [by right|].
    cbn. intros [= H]. apply IH in H as [->|H]; [by left|right].
    cbn. destruct (usable P s); cbn; lia.
Qed.

(** The whole of [get_and_cache_data] on a directory whose entries all
    carry a display symbol. *)
Lemma get_and_cache_data_run num_symbols w symbols :
  (0 <= num_symbols)%Z ->
  stock_symbols (provider w) = Ok symbols ->
  Forall has_display_symbol symbols ->
  let P := provider w in
  let scanned := examined P (Z.to_nat num_symbols) symbols in
  let batch := omap (usable P) scanned in
  run (get_and_cache_data num_symbols) w =
  (Ok batch,
   mkWorld P (<[CACHE_FILENAME := Pickle batch]> (files w))
     (trace w ++ EvStockSymbols :: concat (candidate_events P <$> scanned))).
Proof.
  intros Hn Hsym Hdisp P scanned batch.
  unfold get_and_cache_data, get_symbols.
  rewrite !run_bind, run_emit. cbn [run]. rewrite provider_add_trace, Hsym.
  rewrite run_bind.
  rewrite (get_and_cache_data_loop_run _ _ _ _ _ (Z.to_nat num_symbols))
    by (done || lia).
  rewrite provider_add_trace, add_trace_app. cbn [app].
  reflexivity.
Qed.

(** ** Lemmas on the regression *)

Lemma finite_values_Fin ys : finite_values (Fin <$> ys) = Some ys.
Proof. unfold finite_values. by apply mapM_fmap_Some. Qed.

Lemma finite_values_Some l ys : finite_values l = Some ys -> l = Fin <$> ys.
Proof.
  unfold finite_values. intros H%mapM_Some_1.
  induction H as [|f y l ys Hf _ IH]; [done|].
  cbn. rewrite <- IH. by destruct f; simplify_eq.
Qed.

Lemma predict_Fin model X :
  predict model X =
  Fin <$> ((fun x => coef_ model * IZR x + intercept_ model)%R <$> X).
Proof. unfold predict. by rewrite <- list_fmap_compose. Qed.

Lemma length_np_arange n : length (np_arange n) = n.
Proof. unfold np_arange. by rewrite length_fmap, length_seq. Qed.

Lemma np_log_finite f :
  is_finite (np_log f) = true -> exists x, f = Fin x /\ (0 < x)%R.
Proof.
  destruct f as [x| | |]; cbn; try done.
  destruct (Rlt_dec 0 x); [eauto|].
  by destruct (Req_dec_T x 0).
Qed.

Lemma np_log_positive x : (0 < x)%R -> np_log (Fin x) = Fin (ln x).
Proof. intros Hx. cbn. by destruct (Rlt_dec 0 x). Qed.

Lemma fit_finite X ys :
  length X = length ys -> ys <> [] ->
  exists model, LinearRegression_fit X (Fin <$> ys) = Ok model.
Proof.
  intros Hlen Hne. unfold LinearRegression_fit.
  rewrite finite_values_Fin, bool_decide_eq_true_2 by done.
  destruct ys; [done|]. eauto.
Qed.

Lemma fit_Ok_finite X y model :
  LinearRegression_fit X y = Ok model ->
  exists ys, y = Fin <$> ys /\ ys <> [] /\ length X = length ys.
Proof.
  unfold LinearRegression_fit.
  destruct (finite_values y) as [ys|] eqn:Hy; [|done].
  apply finite_values_Some in Hy. case_bool_decide; [|done].
  destruct ys; [done|]. intros _. by exists (r :: ys).
Qed.

Lemma r2_score_finite ys ps :
  length ys = length ps -> (2 <= length ps)%nat ->
  exists r, r2_score (Fin <$> ys) (Fin <$> ps) = Ok (Fin r).
Proof.
  intros Hlen Hn. unfold r2_score. rewrite !finite_values_Fin.
  rewrite bool_decide_eq_true_2 by done.
  rewrite bool_decide_eq_false_2 by lia.
  destruct (Req_dec_T _ 0); [eauto|].
  destruct (Req_dec_T _ 0); eauto.
Qed.

Lemma r2_score_few ys ps :
  length ys = length ps -> (length ps < 2)%nat ->
  r2_score (Fin <$> ys) (Fin <$> ps) = Ok NaN.
Proof.
  intros Hlen Hn. unfold r2_score. rewrite !finite_values_Fin.
  by rewrite !bool_decide_eq_true_2 by done.
Qed.

Lemma determine_exp_trend_unfold data thr model r2v :
  LinearRegression_fit (np_arange (length (dropna data)))
                       (np_log <$> dropna data) = Ok model ->
  r2_score (np_log <$> dropna data)
           (predict model (np_arange (length (dropna data)))) = Ok r2v ->
  determine_exp_trend data thr =
  if fge r2v thr && fgt (Fin (coef_ model)) (Fin 0)
  then Ok (true, Some r2v,
           Some (np_exp <$> predict model (np_arange (length (dropna data)))))
  else Ok (false, None, None).
Proof.
  intros Hfit Hr2. unfold determine_exp_trend.
  rewrite Hfit. cbn. by rewrite Hr2.
Qed.

Lemma determine_exp_trend_fit_raises data thr e :
  LinearRegression_fit (np_arange (length (dropna data)))
                       (np_log <$> dropna data) = Raise e ->
  determine_exp_trend data thr = Raise e.
Proof. intros Hfit. unfold determine_exp_trend. by rewrite Hfit. Qed.

Lemma fgt_Fin_0 x : fgt (Fin x) (Fin 0) = true <-> (0 < x)%R.
Proof. cbn. unfold Rltb. by destruct (Rlt_dec 0 x). Qed.

Lemma np_log_all_positive prices :
  Forall is_positive prices ->
  exists ys, np_log <$> prices = Fin <$> ys /\ length ys = length prices.
Proof.
  induction 1 as [|f prices Hf _ [ys [IH Hlen]]]; [by exists []|].
  destruct f as [x| | |]; try done. cbn in Hf.
  exists (ln x :: ys). rewrite !fmap_cons, IH, np_log_positive by done.
  cbn. by rewrite Hlen.
Qed.

(** ** The classification rule *)

(** C1: for a series with at least two points left after dropping missing
    values, all of them positive, the fit and its coefficient of
    determination exist, and [determine_exp_trend] answers "exponential"
    exactly when that coefficient reaches the threshold and the fitted
    slope is strictly positive; a slope at or below zero is never
    classified exponential. *)
Theorem determine_exp_trend_classification data r2_threshold :
  (2 <= length (dropna data))%nat ->
  Forall is_positive (dropna data) ->
  exists model r2v is_exponential r2o predicted,
    LinearRegression_fit (np_arange (length (dropna data)))
                         (np_log <$> dropna data) = Ok model /\
    r2_score (np_log <$> dropna data)
             (predict model (np_arange (length (dropna data))))
      = Ok (Fin r2v) /\
    determine_exp_trend data r2_threshold =
      Ok (is_exponential, r2o, predicted) /\
    (is_exponential = true <->
     fge (Fin r2v) r2_threshold = true /\ (0 < coef_ model)%R) /\
    ((coef_ model <= 0)%R -> is_exponential = false).
Proof.
  intros Hlen Hpos.
  destruct (np_log_all_positive _ Hpos) as [ys [Hlog Hys]].
  destruct (fit_finite (np_arange (length (dropna data))) ys)
    as [model Hfit].
  { by rewrite length_np_arange. }
  { destruct ys; cbn in *; [lia|done]. }
  destruct (r2_score_finite ys
    ((fun x => coef_ model * IZR x + intercept_ model)%R <$>
     np_arange (length (dropna data)))) as [r2v Hr2].
  { by rewrite length_fmap, length_np_arange. }
  { by rewrite length_fmap, length_np_arange. }
  rewrite <- Hlog in Hfit. rewrite <- Hlog, <- predict_Fin in Hr2.
  pose proof (determine_exp_trend_unfold data r2_threshold _ _ Hfit Hr2)
    as Hrun.
  pose proof (fgt_Fin_0 (coef_ model)) as Hslope.
  exists model, r2v.
  destruct (fge (Fin r2v) r2_threshold);
    destruct (fgt (Fin (coef_ model)) (Fin 0)); cbn in Hrun;
    do 3 eexists; (split; [exact Hfit|]); (split; [exact Hr2|]);
    (split; [exact Hrun|]); split; try tauto.
  intros Hle. assert (0 < coef_ model)%R by tauto. lra.
Qed.

(** ** The analysis pass *)

Lemma analyse_symbols_body_unclassified sd r2o predicted :
  determine_exp_trend (symbol_hist_data sd) default_r2_threshold =
    Ok (false, r2o, predicted) ->
  analyse_symbols_body sd = (sd, None).
Proof. intros H. unfold analyse_symbols_body. by rewrite H. Qed.

Lemma analyse_symbols_body_raises sd e :
  determine_exp_trend (symbol_hist_data sd) default_r2_threshold = Raise e ->
  analyse_symbols_body sd = (sd, Some e).
Proof. intros H. unfold analyse_symbols_body. by rewrite H. Qed.

Lemma analyse_symbols_body_frame sd :
  symbol_info (analyse_symbols_body sd).1 = symbol_info sd /\
  symbol_hist_data (analyse_symbols_body sd).1 = symbol_hist_data sd /\
  (~ classified_exponential (symbol_hist_data sd) ->
   (analyse_symbols_body sd).1 = sd).
Proof.
  unfold analyse_symbols_body, classified_exponential.
  destruct (determine_exp_trend (symbol_hist_data sd) default_r2_threshold)
    as [[[[] r2o] predicted]|e]; cbn; [|done..].
  destruct (getitem (symbol_info sd) "symbol" ≫= _) as [c|e]; cbn.
  - destruct (determine_cagr _ _); cbn;
      (repeat split; [done..|]); intros []; eauto.
  - repeat split; done.
Qed.

Lemma analyse_symbols_cons sd rest :
  (analyse_symbols (sd :: rest)).1 =
  (analyse_symbols_body sd).1 ::
  match (analyse_symbols_body sd).2 with
  | Some _ => rest
  | None => (analyse_symbols rest).1
  end.
Proof.
  cbn. destruct (analyse_symbols_body sd) as [sd' [e|]]; cbn; [done|].
  by destruct (analyse_symbols rest).
Qed.

(** C10: the analysis pass keeps the list's length and order, never
    touches [symbol_info] or [symbol_hist_data], and leaves every record
    that is not classified exponential exactly as it was. *)
Theorem analyse_symbols_frame symbol_data_list :
  Forall2
    (fun before after =>
       symbol_info after = symbol_info before /\
       symbol_hist_data after = symbol_hist_data before /\
       (~ classified_exponential (symbol_hist_data before) ->
        after = before))
    symbol_data_list (analyse_symbols symbol_data_list).1.
Proof.
  induction symbol_data_list as [|sd rest IH]; [by constructor|].
  rewrite analyse_symbols_cons. constructor.
  - apply analyse_symbols_body_frame.
  - destruct (analyse_symbols_body sd).2; [|done].
    apply Forall2_same_length_lookup_2; [done|].
    intros i x y Hx Hy. by simplify_eq.
Qed.

(** ** Series of two points *)

Lemma fit_two_points y0 y1 :
  LinearRegression_fit (np_arange 2) [Fin y0; Fin y1] =
  Ok {| coef_ := (y1 - y0)%R; intercept_ := y0 |}.
Proof.
  unfold LinearRegression_fit. cbn.
  unfold sq_dev, cross_dev, mean. cbn.
  change (Z.of_nat 0) with 0%Z. change (Z.of_nat 1) with 1%Z.
  destruct (Req_dec_T _ 0) as [H|_]; [exfalso; lra|].
  f_equal. f_equal; field.
Qed.

Lemma ss_res_same ys : ss_res ys ys = 0%R.
Proof.
  unfold ss_res, Rsum. induction ys as [|y ys IH]; [done|].
  cbn [zip_with foldr]. rewrite IH. ring.
Qed.

Lemma r2_score_exact ys ps :
  length ys = length ps -> (2 <= length ps)%nat -> ss_res ys ps = 0%R ->
  r2_score (Fin <$> ys) (Fin <$> ps) = Ok (Fin 1).
Proof.
  intros Hlen Hn Hres. unfold r2_score. rewrite !finite_values_Fin.
  rewrite bool_decide_eq_true_2 by done.
  rewrite bool_decide_eq_false_2 by lia.
  by destruct (Req_dec_T _ 0).
Qed.

Lemma two_point_trend a b r2_threshold :
  (0 < a)%R -> (a < b)%R -> fge (Fin 1) r2_threshold = true ->
  exists predicted,
    determine_exp_trend [Fin a; Fin b] r2_threshold =
    Ok (true, Some (Fin 1), Some predicted).
Proof.
  intros Ha Hab Hthr.
  assert (Hb : (0 < b)%R) by lra.
  pose proof (ln_increasing a b Ha Hab) as Hln.
  assert (Hd : dropna [Fin a; Fin b] = [Fin a; Fin b]) by reflexivity.
  eexists. rewrite (determine_exp_trend_unfold _ _
    {| coef_ := (ln b - ln a)%R; intercept_ := ln a |} (Fin 1)).
  - rewrite Hthr. cbn [coef_].
    assert (fgt (Fin (ln b - ln a)) (Fin 0) = true) as ->
      by (apply fgt_Fin_0; lra).
    reflexivity.
  - rewrite Hd. cbn [length fmap list_fmap].
    rewrite !np_log_positive by done. apply fit_two_points.
  - rewrite Hd. cbn [length fmap list_fmap].
    rewrite !np_log_positive by done. rewrite predict_Fin.
    apply (r2_score_exact [ln a; ln b]); [done|cbn; lia|].
    unfold ss_res. cbn. ring.
Qed.

Lemma dropna_complete data :
  Forall (fun f => isna f = false) data -> dropna data = data.
Proof.
  unfold dropna. induction 1 as [|f data Hf _ IH]; [done|].
  rewrite filter_cons_True by done. by rewrite IH.
Qed.

(** ** Series that follow an exponential exactly *)

Lemma Rsum_cons x xs : Rsum (x :: xs) = (x + Rsum xs)%R.
Proof. reflexivity. Qed.

Lemma Rsum_affine k c xs :
  Rsum ((fun x => k * x + c)%R <$> xs) =
  (k * Rsum xs + INR (length xs) * c)%R.
Proof.
  induction xs as [|x xs IH]; [cbn; ring|].
  rewrite fmap_cons, !Rsum_cons, IH. cbn [length]. rewrite S_INR. ring.
Qed.

Lemma mean_affine k c xs :
  xs <> [] ->
  mean ((fun x => k * x + c)%R <$> xs) = (k * mean xs + c)%R.
Proof.
  intros Hne. unfold mean. rewrite Rsum_affine, length_fmap.
  field. apply not_0_INR. by destruct xs.
Qed.

Lemma cross_dev_affine k c xs :
  xs <> [] ->
  cross_dev xs ((fun x => k * x + c)%R <$> xs) = (k * sq_dev xs)%R.
Proof.
  intros Hne. unfold cross_dev, sq_dev.
  rewrite mean_affine, zip_with_fmap_r, zip_with_diag by done.
  generalize (mean xs). intros m. clear Hne.
  induction xs as [|x xs IH]; [cbn; ring|].
  rewrite !fmap_cons, !Rsum_cons, IH. ring.
Qed.

Lemma Rsum_squares_nonneg m xs :
  (0 <= Rsum ((fun x => (x - m) * (x - m)) <$> xs))%R.
Proof.
  induction xs as [|x xs IH]; [cbn; lra|].
  rewrite fmap_cons, Rsum_cons.
  pose proof (Rle_0_sqr (x - m)) as Hsq. unfold Rsqr in Hsq. lra.
Qed.

Lemma Rsum_squares_zero m xs :
  Rsum ((fun x => (x - m) * (x - m))%R <$> xs) = 0%R ->
  Forall (fun x => x = m) xs.
Proof.
  induction xs as [|x xs IH]; [by constructor|].
  rewrite fmap_cons, Rsum_cons.
  pose proof (Rsum_squares_nonneg m xs) as Hrest.
  pose proof (Rle_0_sqr (x - m)) as Hsq. unfold Rsqr in Hsq. intros Hsum.
  assert (Hx : ((x - m) * (x - m) = 0)%R) by lra.
  constructor; [|apply IH; lra].
  apply Rmult_integral in Hx. lra.
Qed.

Lemma sq_dev_arange n :
  (2 <= n)%nat -> sq_dev (IZR <$> np_arange n) <> 0%R.
Proof.
  intros Hn Hzero. apply Rsum_squares_zero in Hzero.
  destruct n as [|[|n]]; [lia..|]. unfold np_arange in Hzero.
  cbn [seq fmap list_fmap] in Hzero.
  apply Forall_cons in Hzero as [H0 Hzero].
  apply Forall_cons in Hzero as [H1 _].
  rewrite <- H1 in H0. change (Z.of_nat 0) with 0%Z in H0.
  change (Z.of_nat 1) with 1%Z in H0. lra.
Qed.

(** On prices [P0 * exp (k * t)], [t = 0 .. n-1], with [k > 0], the fit is
    exact: slope [k], coefficient of determination 1, and the series is
    classified exponential under every threshold up to 1. *)
Lemma exponential_series_classified P0 k n r2_threshold :
  (0 < P0)%R -> (0 < k)%R -> (2 <= n)%nat ->
  fge (Fin 1) r2_threshold = true ->
  exists predicted,
    determine_exp_trend
      ((fun t => Fin (P0 * exp (k * IZR t))) <$> np_arange n) r2_threshold =
    Ok (true, Some (Fin 1), Some predicted).
Proof.
  intros HP0 Hk Hn Hthr.
  set (data := (fun t => Fin (P0 * exp (k * IZR t))) <$> np_arange n).
  set (xs := IZR <$> np_arange n).
  set (ys := (fun x => k * x + ln P0)%R <$> xs).
  assert (Hxs : xs <> []).
  { intros Hnil. apply (f_equal length) in Hnil.
    unfold xs in Hnil. rewrite length_fmap, length_np_arange in Hnil.
    cbn in Hnil. lia. }
  assert (Hd : dropna data = data).
  { apply dropna_complete. unfold data. apply Forall_fmap.
    by apply Forall_true. }
  assert (Hlen : length data = n)
    by (unfold data; by rewrite length_fmap, length_np_arange).
  assert (Hlog : np_log <$> data = Fin <$> ys).
  { unfold data, ys, xs. rewrite <- !list_fmap_compose.
    apply list_fmap_ext. intros i t _. cbn [compose].
    pose proof (exp_pos (k * IZR t)).
    rewrite np_log_positive by (apply Rmult_lt_0_compat; lra).
    rewrite ln_mult, ln_exp by lra. f_equal. ring. }
  assert (Hfit : LinearRegression_fit (np_arange n) (Fin <$> ys) =
                 Ok {| coef_ := k; intercept_ := ln P0 |}).
  { unfold LinearRegression_fit. rewrite finite_values_Fin.
    rewrite bool_decide_eq_true_2
      by (unfold ys, xs; by rewrite !length_fmap).
    destruct ys as [|y ys'] eqn:Hys; [by destruct xs|]. rewrite <- Hys.
    fold xs. pose proof (sq_dev_arange n Hn) as Hsxx. fold xs in Hsxx.
    destruct (Req_dec_T (sq_dev xs) 0); [done|].
    unfold ys. rewrite cross_dev_affine, mean_affine by done.
    do 2 f_equal; field; done. }
  assert (Hpred : predict {| coef_ := k; intercept_ := ln P0 |} (np_arange n)
                  = Fin <$> ys).
  { rewrite predict_Fin. unfold ys, xs. by rewrite <- !list_fmap_compose. }
  eexists. rewrite (determine_exp_trend_unfold _ _
    {| coef_ := k; intercept_ := ln P0 |} (Fin 1)).
  - rewrite Hthr. cbn [coef_].
    assert (fgt (Fin k) (Fin 0) = true) as -> by (by apply fgt_Fin_0).
    reflexivity.
  - by rewrite Hd, Hlen, Hlog.
  - rewrite Hd, Hlen, Hlog, Hpred.
    apply r2_score_exact; [done | |apply ss_res_same].
    unfold ys, xs. by rewrite !length_fmap, length_np_arange.
Qed.

(** ** The growth rate *)

Lemma log_finite_positive prices :
  forall ys, np_log <$> prices = Fin <$> ys -> Forall is_positive prices.
Proof.
  induction prices as [|f prices IH]; intros ys Hlog; [by constructor|].
  destruct ys as [|y ys]; [done|]. injection Hlog as Hf Hrest.
  constructor; [|by eapply IH].
  destruct (np_log_finite f) as [x [-> Hx]]; [by rewrite Hf|done].
Qed.

Lemma exponential_inv data r2_threshold r2o predicted :
  determine_exp_trend data r2_threshold = Ok (true, r2o, predicted) ->
  Forall is_positive (dropna data) /\ dropna data <> [] /\
  exists r2v trend,
    r2o = Some r2v /\ predicted = Some trend /\
    length trend = length (dropna data).
Proof.
  unfold determine_exp_trend.
  destruct (LinearRegression_fit _ _) as [model|e] eqn:Hfit; [|done].
  apply fit_Ok_finite in Hfit as [ys [Hlog [Hne Hlen]]].
  cbn. destruct (r2_score _ _) as [r2v|e]; [|done]. cbn.
  destruct (fge r2v r2_threshold && _); [|done].
  intros [= <- <-]. split; [by eapply log_finite_positive|].
  split.
  - intros Hnil. rewrite Hnil in Hlog. by destruct ys.
  - exists r2v. eexists. split; [done|]. split; [done|].
    unfold predict. by rewrite !length_fmap, length_np_arange.
Qed.

Lemma iloc_first {A} (entries : list A) :
  iloc entries 0 =
  match head entries with Some entry => Ok entry | None => Raise IndexError end.
Proof. by destruct entries. Qed.

Lemma iloc_last {A} (entries : list A) :
  iloc entries (-1) =
  match last entries with Some entry => Ok entry | None => Raise IndexError end.
Proof.
  unfold iloc. cbn [Z.ltb Z.compare].
  destruct entries as [|entry entries]; [done|].
  replace (Z.of_nat (length (entry :: entries)) + -1 <? 0)%Z with false
    by (symmetry; apply Z.ltb_ge; cbn [length]; lia).
  replace (Z.to_nat (Z.of_nat (length (entry :: entries)) + -1))
    with (pred (length (entry :: entries))) by (cbn [length]; lia).
  rewrite <- last_lookup.
  assert (is_Some (last (entry :: entries))) as [fl ->]
    by (by apply last_is_Some).
  done.
Qed.

(** The double index on a frame of one column reads the first and the last
    price of the column. *)
Lemma determine_cagr_frame prices years :
  determine_cagr (OneColumnFrame prices) years =
  match head prices, last prices with
  | Some initial_price, Some final_price =>
      if Req_dec_T years 0 then Raise ZeroDivisionError
      else Ok (fsub (fpow (fdiv final_price initial_price) (1 / years))
                    (Fin 1))
  | _, _ => Raise IndexError
  end.
Proof.
  unfold determine_cagr. rewrite iloc_first, iloc_last, fmap_last.
  destruct prices as [|price prices]; [done|].
  assert (is_Some (last (price :: prices))) as [fl ->]
    by (by apply last_is_Some).
  done.
Qed.

Lemma determine_cagr_positive data a b years :
  head data = Some (Fin a) -> last data = Some (Fin b) ->
  (0 < a)%R -> (0 < b)%R -> years <> 0%R ->
  determine_cagr (OneColumnFrame data) years =
  Ok (Fin (Rpower (b / a) (1 / years) - 1)).
Proof.
  intros Hhead Hlast Ha Hb Hyears. rewrite determine_cagr_frame.
  rewrite Hhead, Hlast.
  destruct (Req_dec_T years 0); [done|].
  unfold fdiv. destruct (Req_dec_T a 0); [lra|].
  unfold fpow.
  destruct (Req_dec_T (1 / years) 0) as [H0|_].
  { exfalso. apply (Rmult_eq_compat_r years) in H0.
    unfold Rdiv in H0. rewrite Rmult_assoc, Rinv_l in H0 by done. lra. }
  assert (0 < b / a)%R by (apply Rdiv_lt_0_compat; lra).
  by destruct (Rlt_dec 0 (b / a)).
Qed.


Lemma HIST_DATA_YEARS_nonzero : IZR HIST_DATA_YEARS <> 0%R.
Proof. unfold HIST_DATA_YEARS. lra. Qed.

Lemma analyse_symbols_body_exponential sd r2v trend c :
  determine_exp_trend (symbol_hist_data sd) default_r2_threshold =
    Ok (true, Some r2v, Some trend) ->
  is_Some (symbol_info sd !! "symbol") ->
  length (symbol_hist_data sd) = length trend ->
  determine_cagr (OneColumnFrame (symbol_hist_data sd))
                 (IZR HIST_DATA_YEARS) = Ok c ->
  analyse_symbols_body sd =
  (mkSymbolData (symbol_info sd) (symbol_hist_data sd) r2v c, None).
Proof.
  intros Htrend [ticker Hticker] Hlen Hcagr. unfold analyse_symbols_body.
  rewrite Htrend. unfold getitem. rewrite Hticker. cbn [mbind result_bind].
  unfold save_plot_img. cbn [default]. rewrite bool_decide_eq_true_2 by done.
  cbn [set_r2 symbol_hist_data]. by rewrite Hcagr.
Qed.




Lemma default_threshold_below_one : fge (Fin 1) default_r2_threshold = true.
Proof.
  unfold default_r2_threshold, fge, Rleb.
  destruct (Rle_dec (8 / 10) 1) as [_|H]; [done|]. exfalso. lra.
Qed.

Lemma rising_record_classified :
  classified_exponential (symbol_hist_data rising_record).
Proof.
  destruct (two_point_trend 1 2 default_r2_threshold) as [predicted H];
    [lra | lra | apply default_threshold_below_one |].
  by exists (Some (Fin 1)), (Some predicted).
Qed.

Lemma rising_record_analysed :
  analyse_symbols_body rising_record =
  (mkSymbolData (symbol_info rising_record) (symbol_hist_data rising_record)
     (Fin 1) (Fin (Rpower (2 / 1) (1 / IZR HIST_DATA_YEARS) - 1)),
   None).
Proof.
  destruct (two_point_trend 1 2 default_r2_threshold)
    as [predicted Htrend];
    [lra | lra | apply default_threshold_below_one |].
  assert (Hlen : length predicted = 2%nat).
  { apply exponential_inv in Htrend
      as (_ & _ & r2v & trend & _ & [= <-] & Hlen).
    exact Hlen. }
  apply (analyse_symbols_body_exponential rising_record (Fin 1) predicted).
  - exact Htrend.
  - by eexists.
  - by rewrite Hlen.
  - apply determine_cagr_positive; try done; try lra.
    apply HIST_DATA_YEARS_nonzero.
Qed.


Lemma determine_exp_trend_classification_witness :
  ((2 <= length (dropna [Fin 1; Fin 2]))%nat /\
   Forall is_positive (dropna [Fin 1; Fin 2])) /\
  exists model r2v is_exponential r2o predicted,
    LinearRegression_fit (np_arange (length (dropna [Fin 1; Fin 2])))
                         (np_log <$> dropna [Fin 1; Fin 2]) = Ok model /\
    r2_score (np_log <$> dropna [Fin 1; Fin 2])
             (predict model (np_arange (length (dropna [Fin 1; Fin 2]))))
      = Ok (Fin r2v) /\
    determine_exp_trend [Fin 1; Fin 2] default_r2_threshold =
      Ok (is_exponential, r2o, predicted) /\
    (is_exponential = true <->
     fge (Fin r2v) default_r2_threshold = true /\ (0 < coef_ model)%R) /\
    ((coef_ model <= 0)%R -> is_exponential = false).
Proof.
  assert (Hd : dropna [Fin 1; Fin 2] = [Fin 1; Fin 2]) by reflexivity.
  assert (Hlen : (2 <= length (dropna [Fin 1; Fin 2]))%nat)
    by (rewrite Hd; cbn; lia).
  assert (Hpos : Forall is_positive (dropna [Fin 1; Fin 2]))
    by (rewrite Hd; repeat (apply Forall_cons_2; [cbn; lra|]);
        apply Forall_nil_2).
  split; [by split|].
  exact (determine_exp_trend_classification [Fin 1; Fin 2]
           default_r2_threshold Hlen Hpos).
Defined.

(** ** Constant series *)

Lemma Rsum_replicate n c : Rsum (replicate n c) = (INR n * c)%R.
Proof.
  induction n as [|n IH]; [cbn; ring|].
  rewrite S_INR. cbn [replicate Rsum foldr]. fold (Rsum (replicate n c)).
  rewrite IH. ring.
Qed.

Lemma mean_replicate n c : n <> 0%nat -> mean (replicate n c) = c.
Proof.
  intros Hn. unfold mean. rewrite Rsum_replicate, length_replicate.
  field. by apply not_0_INR.
Qed.

Lemma cross_dev_constant xs n c :
  n <> 0%nat -> cross_dev xs (replicate n c) = 0%R.
Proof.
  intros Hn. unfold cross_dev. rewrite mean_replicate by done.
  generalize (mean xs). intros m. clear Hn. revert n.
  induction xs as [|x xs IH]; intros [|n]; try done.
  cbn [replicate zip_with Rsum foldr]. fold (Rsum (zip_with
    (fun x y => ((x - m) * (y - c))%R) xs (replicate n c))).
  rewrite IH. ring.
Qed.

Lemma fit_constant X n c :
  length X = n -> n <> 0%nat ->
  LinearRegression_fit X (Fin <$> replicate n c) =
  Ok {| coef_ := 0; intercept_ := c |}.
Proof.
  intros Hlen Hn. unfold LinearRegression_fit.
  rewrite finite_values_Fin, length_replicate.
  rewrite bool_decide_eq_true_2 by done.
  destruct n as [|n]; [done|]. cbn [replicate].
  change (c :: replicate n c) with (replicate (S n) c).
  rewrite cross_dev_constant, mean_replicate by done.
  assert (Hslope : (if Req_dec_T (sq_dev (IZR <$> X)) 0 then 0
                    else 0 / sq_dev (IZR <$> X))%R = 0%R).
  { destruct (Req_dec_T _ 0); [done|]. unfold Rdiv. ring. }
  rewrite Hslope. do 2 f_equal. ring.
Qed.

Lemma predict_constant c X :
  predict {| coef_ := 0; intercept_ := c |} X =
  Fin <$> replicate (length X) c.
Proof.
  unfold predict. cbn [coef_ intercept_].
  induction X as [|x X IH]; [done|].
  cbn [fmap list_fmap length replicate]. f_equal; [|exact IH].
  f_equal. ring.
Qed.

Lemma np_log_replicate n p :
  (0 < p)%R -> np_log <$> replicate n (Fin p) = Fin <$> replicate n (ln p).
Proof. intros Hp. by rewrite !fmap_replicate, np_log_positive. Qed.

Lemma fgt_zero_zero : fgt (Fin 0) (Fin 0) = false.
Proof. cbn. unfold Rltb. destruct (Rlt_dec 0 0); [lra|done]. Qed.

Lemma constant_series_run data n p r2_threshold :
  dropna data = replicate n (Fin p) -> (2 <= n)%nat -> (0 < p)%R ->
  LinearRegression_fit (np_arange n) (np_log <$> dropna data) =
    Ok {| coef_ := 0; intercept_ := ln p |} /\
  r2_score (np_log <$> dropna data)
           (predict {| coef_ := 0; intercept_ := ln p |} (np_arange n)) =
    Ok (Fin 1) /\
  determine_exp_trend data r2_threshold = Ok (false, None, None).
Proof.
  intros Hdata Hn Hp.
  assert (Hfit : LinearRegression_fit (np_arange n) (np_log <$> dropna data)
                 = Ok {| coef_ := 0; intercept_ := ln p |}).
  { rewrite Hdata, np_log_replicate by done.
    apply fit_constant; [apply length_np_arange | lia]. }
  assert (Hr2 : r2_score (np_log <$> dropna data)
                  (predict {| coef_ := 0; intercept_ := ln p |} (np_arange n))
                = Ok (Fin 1)).
  { rewrite Hdata, np_log_replicate, predict_constant, length_np_arange
      by done.
    apply r2_score_exact; [done | by rewrite length_replicate |].
    apply ss_res_same. }
  split; [done|]. split; [done|].
  assert (Hlen : length (dropna data) = n)
    by (by rewrite Hdata, length_replicate).
  rewrite <- Hlen in Hfit, Hr2.
  rewrite (determine_exp_trend_unfold _ _ _ _ Hfit Hr2).
  cbn [coef_]. by rewrite fgt_zero_zero, andb_false_r.
Qed.

(** C6, as the code has it: on a constant series of at least two positive
    prices the regression returns a model of slope 0, the series is not
    classified exponential, the function reports no R^2 ([None] in its
    place), and the record leaves the analysis as it entered it, its [r2]
    at the prior value. *)
Theorem constant_series_unclassified data n p r2_threshold :
  dropna data = replicate n (Fin p) -> (2 <= n)%nat -> (0 < p)%R ->
  (exists model,
     LinearRegression_fit (np_arange n) (np_log <$> dropna data) = Ok model /\
     coef_ model = 0%R) /\
  determine_exp_trend data r2_threshold = Ok (false, None, None) /\
  forall sd, symbol_hist_data sd = data ->
             analyse_symbols_body sd = (sd, None).
Proof.
  intros Hdata Hn Hp.
  destruct (constant_series_run _ n p r2_threshold Hdata Hn Hp)
    as (Hfit & _ & Hrun).
  split; [by eexists|]. split; [exact Hrun|].
  intros sd <-.
  destruct (constant_series_run _ n p default_r2_threshold Hdata Hn Hp)
    as (_ & _ & Hdefault).
  by eapply analyse_symbols_body_unclassified.
Qed.

Lemma constant_series_unclassified_witness :
  (dropna [Fin 5; Fin 5] = replicate 2 (Fin 5) /\
   (2 <= 2)%nat /\ (0 < 5)%R) /\
  determine_exp_trend [Fin 5; Fin 5] default_r2_threshold =
    Ok (false, None, None) /\
  analyse_symbols_body flat_record = (flat_record, None).
Proof.
  assert (Hd : dropna [Fin 5; Fin 5] = replicate 2 (Fin 5)) by reflexivity.
  assert (Hn : (2 <= 2)%nat) by lia.
  assert (Hp : (0 < 5)%R) by lra.
  split; [by repeat split|].
  destruct (constant_series_unclassified [Fin 5; Fin 5] 2 5
              default_r2_threshold Hd Hn Hp) as (_ & Hrun & Hbody).
  split; [exact Hrun|]. by apply Hbody.
Defined.

(** C6, as stated, fails on the constant series 5, 5: the function does
    not report an R^2 of 0, and the coefficient of determination it
    computes is not 0. *)
Lemma constant_series_r2_not_zero :
  ~ (exists predicted,
       determine_exp_trend [Fin 5; Fin 5] default_r2_threshold =
       Ok (false, Some (Fin 0), predicted)) /\
  r2_score (np_log <$> dropna [Fin 5; Fin 5])
           (predict {| coef_ := 0; intercept_ := ln 5 |} (np_arange 2)) <>
  Ok (Fin 0).
Proof.
  destruct (constant_series_run [Fin 5; Fin 5] 2 5 default_r2_threshold)
    as (_ & Hr2 & Hrun); [done | lia | lra |].
  split.
  - intros [predicted H]. by rewrite Hrun in H.
  - rewrite Hr2. intros [= H]. lra.
Qed.

(** ** Series the regression cannot fit *)

Lemma single_point_run data x r2_threshold :
  dropna data = [Fin x] -> (0 < x)%R ->
  determine_exp_trend data r2_threshold = Ok (false, None, None).
Proof.
  intros Hdata Hx.
  destruct (fit_finite (np_arange 1) [ln x]) as [model Hfit]; [done..|].
  rewrite (determine_exp_trend_unfold _ _ model NaN).
  - done.
  - rewrite Hdata. cbn [length fmap list_fmap].
    by rewrite np_log_positive.
  - rewrite Hdata. cbn [length fmap list_fmap].
    rewrite np_log_positive, predict_Fin by done.
    apply (r2_score_few [ln x]); cbn; [done|lia].
Qed.

Lemma no_point_run data r2_threshold :
  dropna data = [] ->
  determine_exp_trend data r2_threshold = Raise ValueError.
Proof.
  intros Hdata. apply determine_exp_trend_fit_raises. by rewrite Hdata.
Qed.

Lemma nonpositive_log f : is_nonpositive f -> is_finite (np_log f) = false.
Proof.
  destruct f as [x| | |]; cbn; try done. intros Hx.
  destruct (Rlt_dec 0 x); [lra|]. by destruct (Req_dec_T x 0).
Qed.

Lemma nonpositive_run data r2_threshold f :
  f ∈ dropna data -> is_nonpositive f ->
  determine_exp_trend data r2_threshold = Raise ValueError.
Proof.
  intros Hin Hf. apply determine_exp_trend_fit_raises.
  unfold LinearRegression_fit.
  assert (finite_values (np_log <$> dropna data) = None) as ->; [|done].
  apply mapM_None_2, Exists_fmap, Exists_exists.
  exists f. split; [done|]. cbn.
  apply nonpositive_log in Hf. by destruct (np_log f).
Qed.

Lemma analyse_symbols_keeps symbol_data_list :
  forall i sd,
  symbol_data_list !! i = Some sd ->
  (analyse_symbols_body sd).1 = sd ->
  (analyse_symbols symbol_data_list).1 !! i = Some sd.
Proof.
  induction symbol_data_list as [|s rest IH]; intros i sd Hi Hsd; [done|].
  rewrite analyse_symbols_cons. destruct i as [|i]; cbn in *.
  - simplify_eq. by rewrite Hsd.
  - destruct (analyse_symbols_body s).2; [done|]. by apply IH.
Qed.

Lemma analyse_symbols_aborts sd e after :
  analyse_symbols_body sd = (sd, Some e) ->
  forall before, exists before' e',
    analyse_symbols (before ++ sd :: after) =
      (before' ++ sd :: after, Some e') /\
    length before' = length before.
Proof.
  intros Hbody. induction before as [|b before (before' & e' & IH & Hlen)].
  - exists [], e. cbn. by rewrite Hbody.
  - cbn [app analyse_symbols].
    destruct (analyse_symbols_body b) as [b' [eb|]].
    + by exists (b' :: before), eb.
    + rewrite IH. exists (b' :: before'), e'. cbn. by rewrite Hlen.
Qed.

(** C2, as the code has it: a series left with exactly one point, a
    positive price, is not a failure: the function returns
    [(False, None, None)] and the record stays in the list as it was; a
    series left with no point makes the regression raise [ValueError],
    which ends the analysis of that record with the record unchanged. *)
Theorem few_points_behaviour data r2_threshold :
  (forall x, dropna data = [Fin x] -> (0 < x)%R ->
     determine_exp_trend data r2_threshold = Ok (false, None, None) /\
     forall (symbol_data_list : list SymbolData) i sd,
       symbol_data_list !! i = Some sd -> symbol_hist_data sd = data ->
       (analyse_symbols symbol_data_list).1 !! i = Some sd) /\
  (dropna data = [] ->
     determine_exp_trend data r2_threshold = Raise ValueError /\
     forall sd, symbol_hist_data sd = data ->
       analyse_symbols_body sd = (sd, Some ValueError)).
Proof.
  split.
  - intros x Hdata Hx. split; [by eapply single_point_run|].
    intros l i sd Hi <-. apply analyse_symbols_keeps; [done|].
    erewrite analyse_symbols_body_unclassified; [done|].
    by eapply single_point_run.
  - intros Hdata. split; [by apply no_point_run|].
    intros sd <-. apply analyse_symbols_body_raises. by apply no_point_run.
Qed.

Lemma few_points_behaviour_witness :
  (dropna [Fin 5] = [Fin 5] /\ (0 < 5)%R /\
   [rising_record; single_record] !! 1%nat = Some single_record /\
   dropna [NaN] = []) /\
  (analyse_symbols [rising_record; single_record]).1 !! 1%nat =
    Some single_record /\
  analyse_symbols_body missing_record = (missing_record, Some ValueError).
Proof.
  assert (H1 : dropna [Fin 5] = [Fin 5]) by reflexivity.
  assert (H2 : (0 < 5)%R) by lra.
  assert (H3 : [rising_record; single_record] !! 1%nat = Some single_record)
    by reflexivity.
  assert (H4 : dropna [NaN] = []) by reflexivity.
  split; [by repeat split|]. split.
  - destruct (few_points_behaviour [Fin 5] default_r2_threshold) as [H _].
    destruct (H 5%R H1 H2) as [_ Hkeep]. by apply Hkeep.
  - destruct (few_points_behaviour [NaN] default_r2_threshold) as [_ H].
    destruct (H H4) as [_ Hbody]. by apply Hbody.
Defined.

(** C2, as stated, fails on the one-point series 5, for which the function
    returns instead of failing, and on a series of missing values only,
    where the exception ends the whole pass: the rising record behind it
    is never analysed. *)
Lemma few_points_not_insufficient_data :
  ((length (dropna [Fin 5]) < 2)%nat /\
   ~ raises (determine_exp_trend [Fin 5] default_r2_threshold)) /\
  ((length (dropna [NaN]) < 2)%nat /\
   analyse_symbols [missing_record; rising_record] =
     ([missing_record; rising_record], Some ValueError)).
Proof.
  split; split.
  - replace (dropna [Fin 5]) with [Fin 5] by reflexivity. cbn. lia.
  - rewrite (single_point_run [Fin 5] 5) by (done || lra).
    by intros [e He].
  - replace (dropna [NaN]) with (@nil float) by reflexivity. cbn. lia.
  - cbn [analyse_symbols].
    rewrite (analyse_symbols_body_raises missing_record ValueError); [done|].
    by apply no_point_run.
Qed.

(** C3, as the code has it: the logarithm of a price at or below zero is
    taken and is not finite, the regression then raises [ValueError], and
    nothing catches it: the analysis pass ends at that record, which is
    left with every record after it as it was. *)
Theorem nonpositive_price_aborts data r2_threshold f :
  f ∈ dropna data -> is_nonpositive f ->
  is_finite (np_log f) = false /\
  determine_exp_trend data r2_threshold = Raise ValueError /\
  forall sd after, symbol_hist_data sd = data ->
    analyse_symbols (sd :: after) = (sd :: after, Some ValueError) /\
    forall before, exists before' e,
      analyse_symbols (before ++ sd :: after) =
        (before' ++ sd :: after, Some e) /\
      length before' = length before.
Proof.
  intros Hin Hf. split; [by apply nonpositive_log|].
  split; [by eapply nonpositive_run|].
  intros sd after <-.
  assert (Hbody : analyse_symbols_body sd = (sd, Some ValueError)).
  { apply analyse_symbols_body_raises. by eapply nonpositive_run. }
  split.
  - cbn [analyse_symbols]. by rewrite Hbody.
  - by apply analyse_symbols_aborts with (e := ValueError).
Qed.

Lemma nonpositive_price_aborts_witness :
  (Fin (-1) ∈ dropna [Fin 1; Fin (-1)] /\ is_nonpositive (Fin (-1))) /\
  determine_exp_trend [Fin 1; Fin (-1)] default_r2_threshold =
    Raise ValueError /\
  analyse_symbols [negative_record; rising_record] =
    ([negative_record; rising_record], Some ValueError).
Proof.
  assert (Hin : Fin (-1) ∈ dropna [Fin 1; Fin (-1)]).
  { replace (dropna [Fin 1; Fin (-1)]) with [Fin 1; Fin (-1)]
      by reflexivity.
    apply list_elem_of_further, list_elem_of_here. }
  assert (Hf : is_nonpositive (Fin (-1))) by (cbn; lra).
  split; [by split|].
  destruct (nonpositive_price_aborts [Fin 1; Fin (-1)] default_r2_threshold
              (Fin (-1)) Hin Hf) as (_ & Hrun & Hpass).
  split; [exact Hrun|].
  by destruct (Hpass negative_record [rising_record] eq_refl) as [H _].
Defined.

(** C3, as stated, fails on the series 1, -1: the failure is fatal to the
    pass, which stops with the exception and never analyses the rising
    record behind it, a record the pass classifies when it comes first. *)
Lemma nonpositive_price_is_fatal :
  Fin (-1) ∈ dropna (symbol_hist_data negative_record) /\
  (analyse_symbols [negative_record; rising_record]).2 = Some ValueError /\
  (analyse_symbols [negative_record; rising_record]).1 !! 1%nat =
    Some rising_record /\
  (analyse_symbols_body rising_record).1 <> rising_record.
Proof.
  assert (Hrun : determine_exp_trend (symbol_hist_data negative_record)
                   default_r2_threshold = Raise ValueError).
  { apply (nonpositive_run _ _ (Fin (-1))); [|cbn; lra].
    replace (dropna (symbol_hist_data negative_record))
      with [Fin 1; Fin (-1)] by reflexivity.
    apply list_elem_of_further, list_elem_of_here. }
  assert (Hpass : analyse_symbols [negative_record; rising_record] =
                  ([negative_record; rising_record], Some ValueError)).
  { cbn [analyse_symbols].
    by rewrite (analyse_symbols_body_raises negative_record ValueError). }
  split; [|rewrite Hpass; split; [done|split; [done|]]].
  - replace (dropna (symbol_hist_data negative_record))
      with [Fin 1; Fin (-1)] by reflexivity.
    apply list_elem_of_further, list_elem_of_here.
  - destruct (two_point_trend 1 2 default_r2_threshold)
      as [predicted Htrend];
      [lra | lra | apply default_threshold_below_one |].
    assert (Hlen : length predicted = 2%nat).
    { apply exponential_inv in Htrend
        as (_ & _ & r2v & trend & _ & [= <-] & Hlen).
      exact Hlen. }
    rewrite (analyse_symbols_body_exponential rising_record (Fin 1) predicted
               (Fin (Rpower (2 / 1) (1 / IZR HIST_DATA_YEARS) - 1))).
    + cbn. intros H. apply (f_equal r2) in H. cbn in H.
      injection H as H. lra.
    + exact Htrend.
    + by eexists.
    + by rewrite Hlen.
    + apply determine_cagr_positive; try done; try lra.
      apply HIST_DATA_YEARS_nonzero.
Qed.

(** ** The orchestrator *)

(** C4: on a non-negative target count and a directory whose entries all
    carry a display symbol, [get_and_cache_data] returns a batch of at most
    [num_symbols] records, exactly min(num_symbols, number of usable
    candidates) of them; it examines a prefix of the candidates, calls the
    provider for these only, and the prefix ends as soon as the count is
    reached or the candidates are exhausted. *)
Theorem get_and_cache_data_count num_symbols w symbols :
  (0 <= num_symbols)%Z ->
  stock_symbols (provider w) = Ok symbols ->
  Forall has_display_symbol symbols ->
  exists batch w' scanned rest,
    run (get_and_cache_data num_symbols) w = (Ok batch, w') /\
    (Z.of_nat (length batch) <= num_symbols)%Z /\
    Z.of_nat (length batch) =
      Z.min num_symbols
            (Z.of_nat (length (omap (usable (provider w)) symbols))) /\
    symbols = scanned ++ rest /\
    batch = omap (usable (provider w)) scanned /\
    trace w' = trace w ++ EvStockSymbols ::
               concat (candidate_events (provider w) <$> scanned) /\
    (rest = [] \/ Z.of_nat (length batch) = num_symbols) /\
    (forall before symbol after,
       scanned = before ++ symbol :: after ->
       (Z.of_nat (length (omap (usable (provider w)) before))
        < num_symbols)%Z).
Proof.
  intros Hn Hsym Hdisp.
  pose proof (get_and_cache_data_run num_symbols w symbols Hn Hsym Hdisp)
    as Hrun. cbn zeta in Hrun.
  destruct (examined_prefix (provider w) (Z.to_nat num_symbols) symbols)
    as [rest Hrest].
  pose proof (examined_usable (provider w) (Z.to_nat num_symbols) symbols)
    as Htake.
  pose proof (f_equal length Htake) as Hlen. rewrite length_take in Hlen.
  eexists _, _, _, rest. split; [exact Hrun|].
  split; [lia|]. split; [lia|]. split; [exact Hrest|].
  split; [done|]. split; [done|]. split.
  - destruct (examined_exhausted _ _ _ _ Hrest) as [->|H]; [by left|].
    right. lia.
  - intros before symbol after Hscan.
    apply examined_stops in Hscan. lia.
Qed.

(** C5: under the same conditions the batch is made of the usable
    candidates, in the order of the directory, cut at the target count:
    a candidate that fails validation or fetching is skipped and the ones
    behind it are still examined.  The batch is what the cache holds. *)
Theorem get_and_cache_data_order num_symbols w symbols :
  (0 <= num_symbols)%Z ->
  stock_symbols (provider w) = Ok symbols ->
  Forall has_display_symbol symbols ->
  exists w',
    run (get_and_cache_data num_symbols) w =
      (Ok (take (Z.to_nat num_symbols)
                (omap (usable (provider w)) symbols)), w') /\
    files w' !! CACHE_FILENAME =
      Some (Pickle (take (Z.to_nat num_symbols)
                         (omap (usable (provider w)) symbols))).
Proof.
  intros Hn Hsym Hdisp.
  pose proof (get_and_cache_data_run num_symbols w symbols Hn Hsym Hdisp)
    as Hrun. cbn zeta in Hrun. rewrite examined_usable in Hrun.
  eexists. split; [exact Hrun|]. cbn [files]. apply lookup_insert_eq.
Qed.

(** ** The cache *)

(** C8: loading after saving returns the saved batch, whatever the cache
    file held before, and a save replaces the content left by an earlier
    save. *)
Theorem cache_round_trip batch w :
  (run (cache_symbol_data batch) w).1 = Ok tt /\
  run load_cached_symbol_data (run (cache_symbol_data batch) w).2 =
    (Ok batch, (run (cache_symbol_data batch) w).2) /\
  forall prior,
    (run (cache_symbol_data batch) (run (cache_symbol_data prior) w).2).2 =
    (run (cache_symbol_data batch) w).2.
Proof.
  split; [done|]. split.
  - unfold load_cached_symbol_data, cache_symbol_data, write_file.
    cbn [run files snd]. by rewrite lookup_insert_eq.
  - intros prior. unfold cache_symbol_data, write_file.
    cbn [run snd provider files trace]. by rewrite insert_insert_eq.
Qed.

(** C9: reading from the cache is loading the cache file: the result does
    not depend on [num_symbols], and the world is left as it was, so no
    provider is called and no file is written. *)
Theorem get_symbol_data_from_cache num_symbols w :
  run (get_symbol_data true num_symbols) w = run load_cached_symbol_data w /\
  (run (get_symbol_data true num_symbols) w).2 = w /\
  forall other,
    run (get_symbol_data true other) w =
    run (get_symbol_data true num_symbols) w.
Proof.
  split; [done|]. split; [|done].
  cbn [get_symbol_data]. unfold load_cached_symbol_data. cbn [run].
  destruct (files w !! CACHE_FILENAME) as [[batch|e]|]; done.
Qed.

(** ** The sample run *)

Lemma sample_symbols_display : Forall has_display_symbol sample_symbols.
Proof.
  unfold sample_symbols.
  repeat (apply Forall_cons_2; [by eexists|]). apply Forall_nil_2.
Qed.

Lemma get_and_cache_data_count_witness :
  ((0 <= 2)%Z /\
   stock_symbols (provider sample_world) = Ok sample_symbols /\
   Forall has_display_symbol sample_symbols) /\
  exists batch w' scanned rest,
    run (get_and_cache_data 2) sample_world = (Ok batch, w') /\
    (Z.of_nat (length batch) <= 2)%Z /\
    Z.of_nat (length batch) =
      Z.min 2 (Z.of_nat (length (omap (usable (provider sample_world))
                                      sample_symbols))) /\
    sample_symbols = scanned ++ rest /\
    batch = omap (usable (provider sample_world)) scanned /\
    trace w' = trace sample_world ++ EvStockSymbols ::
               concat (candidate_events (provider sample_world) <$> scanned) /\
    (rest = [] \/ Z.of_nat (length batch) = 2%Z) /\
    (forall before symbol after,
       scanned = before ++ symbol :: after ->
       (Z.of_nat (length (omap (usable (provider sample_world)) before))
        < 2)%Z).
Proof.
  assert (Hn : (0 <= 2)%Z) by lia.
  assert (Hsym : stock_symbols (provider sample_world) = Ok sample_symbols)
    by reflexivity.
  split; [split; [exact Hn | split; [exact Hsym |
                                     exact sample_symbols_display]] |].
  exact (get_and_cache_data_count 2 sample_world sample_symbols Hn Hsym
           sample_symbols_display).
Defined.

Lemma get_and_cache_data_order_witness :
  ((0 <= 2)%Z /\
   stock_symbols (provider sample_world) = Ok sample_symbols /\
   Forall has_display_symbol sample_symbols) /\
  (run (get_and_cache_data 2) sample_world).1 =
    Ok [rising_record; flat_record].
Proof.
  assert (Hn : (0 <= 2)%Z) by lia.
  assert (Hsym : stock_symbols (provider sample_world) = Ok sample_symbols)
    by reflexivity.
  split; [split; [exact Hn | split; [exact Hsym |
                                     exact sample_symbols_display]] |].
  destruct (get_and_cache_data_order 2 sample_world sample_symbols Hn Hsym
              sample_symbols_display) as [w' [Hrun _]].
  rewrite Hrun. vm_compute. reflexivity.
Defined.

Lemma analyse_symbols_frame_witness :
  Forall2
    (fun before after =>
       symbol_info after = symbol_info before /\
       symbol_hist_data after = symbol_hist_data before /\
       (~ classified_exponential (symbol_hist_data before) ->
        after = before))
    [rising_record; flat_record]
    (analyse_symbols [rising_record; flat_record]).1.
Proof. exact (analyse_symbols_frame [rising_record; flat_record]). Defined.

(** * Further properties of data_manager.py *)

(** ** The two provider queries *)

Lemma sleep_seconds_app evs1 evs2 :
  sleep_seconds (evs1 ++ evs2) = (sleep_seconds evs1 + sleep_seconds evs2)%Z.
Proof.
  induction evs1 as [|ev evs1 IH]; [done|].
  cbn [app sleep_seconds foldr]. fold (sleep_seconds (evs1 ++ evs2)).
  fold (sleep_seconds evs1). rewrite IH. destruct ev; lia.
Qed.

Lemma provider_calls_app evs1 evs2 :
  provider_calls (evs1 ++ evs2) =
  (provider_calls evs1 + provider_calls evs2)%nat.
Proof. unfold provider_calls. by rewrite filter_app, length_app. Qed.

(** X1: [validate_and_get_info] never raises and never writes a file: a
    ticker object that cannot be built, a failing or empty latest-session
    query, or a failing info query, gives "invalid".  When the ticker
    object cannot be built there is no sleep and no query.  Otherwise it
    sleeps [REQUEST_DELAY] seconds once, before the first query, and asks
    for the issuer's info only when the latest session is not empty. *)
Theorem validate_and_get_info_total ticker_symbol w :
  exists v evs,
    run (validate_and_get_info ticker_symbol) w = (Ok v, add_trace evs w) /\
    (forall info,
       v = Some info <->
       yf_Ticker (provider w) ticker_symbol = Ok tt /\
       exists data,
         ticker_history (provider w) ticker_symbol = Ok data /\
         df_empty data = false /\
         ticker_get_info (provider w) ticker_symbol = Ok info) /\
    (raises (yf_Ticker (provider w) ticker_symbol) ->
     v = None /\ evs = []) /\
    (yf_Ticker (provider w) ticker_symbol = Ok tt ->
     head evs = Some (EvSleep REQUEST_DELAY) /\
     sleep_seconds evs = REQUEST_DELAY) /\
    (provider_calls evs <= 2)%nat /\
    (EvGetInfo ticker_symbol ∈ evs <->
     yf_Ticker (provider w) ticker_symbol = Ok tt /\
     exists data,
       ticker_history (provider w) ticker_symbol = Ok data /\
       df_empty data = false).
Proof.
  exists (validated (provider w) ticker_symbol),
         (validate_events (provider w) ticker_symbol).
  split; [apply validate_and_get_info_run|].
  unfold validated, validate_events.
  destruct (yf_Ticker (provider w) ticker_symbol) as [[]|e0].
  2: { split_and!; try done; try (cbn; lia).
       - intros info. split; [done|]. by intros [? _].
       - split; [by intros ?%elem_of_nil|]. by intros [? _]. }
  assert (Hno : ~ raises (Ok tt : result unit)) by (by intros [e He]).
  destruct (ticker_history (provider w) ticker_symbol) as [data|e].
  - destruct (df_empty data) eqn:Hempty.
    + split_and!; try done; try (cbn; lia); try (vm_compute; lia).
      * intros info. split; [done|].
        intros (_ & data' & [= <-] & ? & _). congruence.
      * split.
        -- intros Hin. apply list_elem_of_In in Hin. cbn in Hin.
           destruct Hin as [?|[?|[]]]; done.
        -- intros (_ & data' & [= <-] & ?). congruence.
    + split_and!; try done; try (cbn; lia); try (vm_compute; lia).
      * intros info. split.
        -- intros Hv. split; [done|]. exists data.
           destruct (ticker_get_info (provider w) ticker_symbol);
             by simplify_eq.
        -- intros (_ & data' & _ & _ & ->). done.
      * split; [intros _; split; [done|]; by exists data|].
        intros _. apply list_elem_of_In. cbn. tauto.
  - split_and!; try done; try (cbn; lia); try (vm_compute; lia).
    + intros info. split; [done|]. intros (_ & data & ? & _). done.
    + split.
      * intros Hin. apply list_elem_of_In in Hin. cbn in Hin.
        destruct Hin as [?|[?|[]]]; done.
      * intros (_ & data & ? & _). done.
Qed.

Lemma validate_and_get_info_total_witness :
  raises (yf_Ticker (provider sample_world) "") /\
  run (validate_and_get_info "") sample_world = (Ok None, sample_world).
Proof.
  assert (Hraise : raises (yf_Ticker (provider sample_world) ""))
    by (by exists ValueError).
  split; [exact Hraise|].
  destruct (validate_and_get_info_total "" sample_world)
    as (v & evs & Hrun & _ & Hnone & _).
  destruct (Hnone Hraise) as [-> ->]. exact Hrun.
Defined.

(** X2: [get_historical_close_data] raises only from the computation of the
    start date, before any request: when the year [period_years] years
    back is outside 1..9999 it raises [ValueError] (or [OverflowError]),
    without a provider call, a sleep or a file written.  Otherwise it
    never raises and never writes a file: a failing download gives [None]
    and skips the sleep; a download that returns is followed by one sleep
    of [REQUEST_DELAY] seconds and gives the adjusted close when the frame
    has that column, the raw close otherwise, and [None] when the frame is
    empty or has neither. *)
Theorem get_historical_close_data_total ticker_symbol period_years w :
  (~ (1 <= clock_year (clock (provider w)) - period_years <= 9999)%Z ->
   exists e,
     run (get_historical_close_data ticker_symbol period_years) w =
       (Raise e, w) /\
     (e = ValueError \/ e = OverflowError)) /\
  ((1 <= clock_year (clock (provider w)) - period_years <= 9999)%Z ->
   exists v evs,
     run (get_historical_close_data ticker_symbol period_years) w =
       (Ok v, add_trace evs w) /\
     provider_calls evs = 1%nat /\
     match yf_download (provider w) ticker_symbol period_years with
     | Raise _ => v = None /\ sleep_seconds evs = 0%Z
     | Ok data =>
         sleep_seconds evs = REQUEST_DELAY /\
         v = if df_empty data then None
             else match df_columns data !! "Adj Close" with
                  | Some prices => Some prices
                  | None => df_columns data !! "Close"
                  end
     end).
Proof.
  rewrite get_historical_close_data_unfold. split.
  - intros Hrange.
    destruct (years_back_raises _ _ Hrange) as (e & -> & He). eauto.
  - intros Hrange. rewrite years_back_Ok by done.
    destruct (yf_download (provider w) ticker_symbol period_years)
      as [data|e]; eexists _, _; (split; [reflexivity|]); done.
Qed.

Lemma get_historical_close_data_total_witness :
  (~ (1 <= clock_year (clock (provider sample_world)) - 2025 <= 9999)%Z /\
   (1 <= clock_year (clock (provider sample_world)) - 5 <= 9999)%Z) /\
  (exists e,
     run (get_historical_close_data "A" 2025) sample_world =
       (Raise e, sample_world) /\
     (e = ValueError \/ e = OverflowError)) /\
  (exists v evs,
     run (get_historical_close_data "A" 5) sample_world =
       (Ok v, add_trace evs sample_world) /\
     provider_calls evs = 1%nat).
Proof.
  assert (Hout : ~ (1 <= clock_year (clock (provider sample_world)) - 2025
                      <= 9999)%Z) by (cbn; lia).
  assert (Hin : (1 <= clock_year (clock (provider sample_world)) - 5
                   <= 9999)%Z) by (cbn; lia).
  split; [by split|]. split.
  - exact (proj1 (get_historical_close_data_total "A" 2025 sample_world)
                 Hout).
  - destruct (proj2 (get_historical_close_data_total "A" 5 sample_world)
                    Hin) as (v & evs & Hrun & Hcalls & _).
    exists v, evs. split; [exact Hrun | exact Hcalls].
Defined.

(** ** What a run leaves behind *)

Lemma usable_fresh P symbol sd : usable P symbol = Some sd -> fresh sd.
Proof.
  unfold usable. destruct (symbol !! "displaySymbol") as [t|]; [|done].
  cbn. destruct (validated P t); [|done]. cbn.
  destruct (fetched P t); [|done]. cbn. by intros [= <-].
Qed.

Lemma get_and_cache_data_loop_frame num_symbols symbols :
  forall acc i w,
  provider (run (get_and_cache_data_loop num_symbols symbols acc i) w).2
    = provider w /\
  files (run (get_and_cache_data_loop num_symbols symbols acc i) w).2
    = files w /\
  (forall e, (run (get_and_cache_data_loop num_symbols symbols acc i) w).1
             = Raise e -> e = KeyError) /\
  (Forall fresh acc ->
   forall batch,
     (run (get_and_cache_data_loop num_symbols symbols acc i) w).1
       = Ok batch -> Forall fresh batch).
Proof.
  induction symbols as [|symbol symbols IH]; intros acc i w;
    cbn [get_and_cache_data_loop].
  { split_and!; try done; try by intros Hacc batch [= <-]. }
  destruct (i =? num_symbols)%Z.
  { split_and!; try done; try by intros Hacc batch [= <-]. }
  rewrite !run_bind. unfold lift, getitem.
  destruct (symbol !! "displaySymbol") as [symbol_string|]; cbn [run].
  2: { split_and!; try done; try by intros e [= <-]. }
  rewrite !run_bind, !validate_and_get_info_run.
  destruct (validated (provider w) symbol_string) as [symbol_info|];
    [|exact (IH _ _ (add_trace _ w))].
  rewrite !run_bind, !get_historical_close_data_run.
  destruct (fetched _ symbol_string) as [hist_data|];
    [|exact (IH _ _ (add_trace _ (add_trace _ w)))].
  destruct (IH (acc ++ [mkSymbolData symbol_info hist_data (Fin 0) (Fin 0)])
               (i + 1)%Z
               (add_trace (fetch_events
                  (provider (add_trace (validate_events (provider w)
                                          symbol_string) w))
                  symbol_string)
                  (add_trace (validate_events (provider w) symbol_string)
                             w)))
    as (Hp & Hf & He & Hfresh).
  split_and!; [exact Hp | exact Hf | exact He |].
  intros Hacc. apply Hfresh. apply Forall_app. split; [done|].
  by repeat constructor.
Qed.

Lemma get_and_cache_data_loop_app num_symbols good tail :
  forall acc i w,
  Forall has_display_symbol good ->
  (i + Z.of_nat (length (omap (usable (provider w)) good)) < num_symbols
   \/ num_symbols < i)%Z ->
  run (get_and_cache_data_loop num_symbols (good ++ tail) acc i) w =
  run (get_and_cache_data_loop num_symbols tail
         (acc ++ omap (usable (provider w)) good)
         (i + Z.of_nat (length (omap (usable (provider w)) good))))
      (add_trace (concat (candidate_events (provider w) <$> good)) w).
Proof.
  induction good as [|symbol good IH]; intros acc i w Hdisp Hk.
  { cbn. by rewrite app_nil_r, Z.add_0_r, add_trace_nil. }
  apply Forall_cons in Hdisp as [[symbol_string Hsym] Hdisp].
  cbn [app get_and_cache_data_loop].
  assert (Hu : usable (provider w) symbol =
               symbol_info ← validated (provider w) symbol_string;
               hist_data ← fetched (provider w) symbol_string;
               Some (mkSymbolData symbol_info hist_data (Fin 0) (Fin 0)))
    by (unfold usable; by rewrite Hsym).
  cbn [omap list_omap] in Hk |- *.
  replace (i =? num_symbols)%Z with false
    by (symmetry; apply Z.eqb_neq;
        destruct (usable (provider w) symbol); cbn in Hk; lia).
  rewrite run_bind. unfold lift at 1, getitem at 1. rewrite Hsym.
  cbn [run]. rewrite run_bind, validate_and_get_info_run.
  cbn [fmap list_fmap concat].
  unfold candidate_events at 1. rewrite Hsym.
  destruct (validated (provider w) symbol_string) as [symbol_info|].
  - rewrite run_bind, get_historical_close_data_run, provider_add_trace.
    destruct (fetched (provider w) symbol_string) as [hist_data|];
      cbn in Hu; rewrite Hu in Hk |- *.
    + rewrite IH by (done || (rewrite !provider_add_trace; cbn in Hk; lia)).
      rewrite !provider_add_trace, !add_trace_app, <- !app_assoc.
      cbn [length app]. do 2 f_equal. lia.
    + rewrite IH by (done || (rewrite !provider_add_trace; cbn in Hk; lia)).
      rewrite !provider_add_trace, !add_trace_app, <- !app_assoc. done.
  - cbn in Hu; rewrite Hu in Hk |- *.
    rewrite IH by (done || (rewrite !provider_add_trace; cbn in Hk; lia)).
    rewrite !provider_add_trace, !add_trace_app, app_nil_r. done.
Qed.

Lemma get_and_cache_data_loop_reached num_symbols good tail :
  forall acc i w k,
  Forall has_display_symbol good ->
  (i + Z.of_nat k = num_symbols)%Z ->
  (k <= length (omap (usable (provider w)) good))%nat ->
  run (get_and_cache_data_loop num_symbols (good ++ tail) acc i) w =
  run (get_and_cache_data_loop num_symbols good acc i) w.
Proof.
  induction good as [|symbol good IH]; intros acc i w k Hdisp Hk Hlen.
  { cbn in Hlen. assert (k = 0%nat) as -> by lia.
    cbn [app]. destruct tail as [|symbol tail]; [done|].
    cbn [get_and_cache_data_loop].
    by replace (i =? num_symbols)%Z with true
      by (symmetry; apply Z.eqb_eq; lia). }
  apply Forall_cons in Hdisp as [[symbol_string Hsym] Hdisp].
  cbn [app get_and_cache_data_loop].
  destruct (i =? num_symbols)%Z eqn:Hi; [done|].
  apply Z.eqb_neq in Hi.
  assert (Hu : usable (provider w) symbol =
               symbol_info ← validated (provider w) symbol_string;
               hist_data ← fetched (provider w) symbol_string;
               Some (mkSymbolData symbol_info hist_data (Fin 0) (Fin 0)))
    by (unfold usable; by rewrite Hsym).
  cbn [omap list_omap] in Hlen.
  rewrite !run_bind. unfold lift, getitem. rewrite Hsym.
  cbn [run]. rewrite !run_bind, validate_and_get_info_run.
  destruct (validated (provider w) symbol_string) as [symbol_info|].
  - rewrite !run_bind, get_historical_close_data_run, provider_add_trace.
    destruct (fetched (provider w) symbol_string) as [hist_data|];
      cbn in Hu; rewrite Hu in Hlen.
    + apply (IH _ _ _ (k - 1)%nat); [done | lia |].
      rewrite !provider_add_trace. cbn in Hlen. lia.
    + apply (IH _ _ _ k); [done | lia |]. by rewrite !provider_add_trace.
  - cbn in Hu; rewrite Hu in Hlen.
    apply (IH _ _ _ k); [done | lia |]. by rewrite !provider_add_trace.
Qed.

Lemma get_and_cache_data_unfold num_symbols w :
  run (get_and_cache_data num_symbols) w =
  match stock_symbols (provider w) with
  | Raise e => (Raise e, add_trace [EvStockSymbols] w)
  | Ok symbols =>
    match run (get_and_cache_data_loop num_symbols symbols [] 0%Z)
              (add_trace [EvStockSymbols] w) with
    | (Ok batch, w2) =>
        (Ok batch,
         mkWorld (provider w2) (<[CACHE_FILENAME := Pickle batch]> (files w2))
                 (trace w2))
    | (Raise e, w2) => (Raise e, w2)
    end
  end.
Proof.
  unfold get_and_cache_data, get_symbols.
  rewrite !run_bind, run_emit. cbn [run]. rewrite provider_add_trace.
  destruct (stock_symbols (provider w)) as [symbols|e]; [|done].
  rewrite run_bind.
  destruct (run (get_and_cache_data_loop num_symbols symbols [] 0%Z) _)
    as [[batch|e] w2]; done.
Qed.

Lemma generate_report_loop_skips render symbol_data_list :
  forall report_html,
  Forall (fun sd => r2 sd = Fin 0) symbol_data_list ->
  generate_report_loop render symbol_data_list report_html =
  Some report_html.
Proof.
  induction symbol_data_list as [|sd rest IH]; intros html Hall; [done|].
  apply Forall_cons in Hall as [Hsd Hrest]. cbn [generate_report_loop].
  rewrite Hsd. cbn [fne]. unfold Reqb.
  destruct (Req_dec_T 0 0); [|done]. cbn [negb]. by apply IH.
Qed.

(** X3: A run that returns has written its batch to the cache file and to no
    other file, so reading the cache right after it returns the same
    batch, for every [num_symbols] passed to the read. *)
Theorem fresh_run_is_cached num_symbols other w batch w' :
  run (get_and_cache_data num_symbols) w = (Ok batch, w') ->
  files w' = <[CACHE_FILENAME := Pickle batch]> (files w) /\
  run (get_symbol_data true other) w' = (Ok batch, w').
Proof.
  rewrite get_and_cache_data_unfold.
  destruct (stock_symbols (provider w)) as [symbols|e]; [|done].
  pose proof (get_and_cache_data_loop_frame num_symbols symbols [] 0%Z
                (add_trace [EvStockSymbols] w)) as (_ & Hfiles & _).
  destruct (run (get_and_cache_data_loop num_symbols symbols [] 0%Z) _)
    as [[batch'|e] w2]; [|done].
  intros [= <- <-]. cbn in Hfiles. rewrite Hfiles. split; [done|].
  cbn [get_symbol_data]. unfold load_cached_symbol_data. cbn [run files].
  by rewrite lookup_insert_eq.
Qed.

(** X4: Every record of a returned batch carries the defaults [r2 = 0] and
    [cagr = 0], so a report generated from a batch that was never analysed
    has no page, whatever the renderer: the renderer is not even called. *)
Theorem fresh_run_has_no_page num_symbols w batch w' :
  run (get_and_cache_data num_symbols) w = (Ok batch, w') ->
  Forall fresh batch /\
  forall render, generate_report render batch = Some "".
Proof.
  rewrite get_and_cache_data_unfold.
  destruct (stock_symbols (provider w)) as [symbols|e]; [|done].
  pose proof (get_and_cache_data_loop_frame num_symbols symbols [] 0%Z
                (add_trace [EvStockSymbols] w)) as (_ & _ & _ & Hfresh).
  destruct (run (get_and_cache_data_loop num_symbols symbols [] 0%Z) _)
    as [[batch'|e] w2]; [|done].
  intros [= <- <-].
  assert (Hall : Forall fresh batch') by (by apply Hfresh).
  split; [done|]. intros render. apply generate_report_loop_skips.
  eapply Forall_impl; [exact Hall|]. by intros sd [? _].
Qed.

(** X5: A run that raises has not touched any file: the cache keeps what it
    held, and a later read of the cache answers as it would have before
    the run.  The exception is the directory's own, or the [KeyError] of
    an entry without display symbol. *)
Theorem failed_run_keeps_cache num_symbols other w e w' :
  run (get_and_cache_data num_symbols) w = (Raise e, w') ->
  files w' = files w /\
  (e = KeyError \/ stock_symbols (provider w) = Raise e) /\
  (run (get_symbol_data true other) w').1 =
  (run (get_symbol_data true other) w).1.
Proof.
  rewrite get_and_cache_data_unfold. intros Hrun.
  assert (Hfiles : files w' = files w /\
                   (e = KeyError \/ stock_symbols (provider w) = Raise e)).
  { destruct (stock_symbols (provider w)) as [symbols|e0].
    - pose proof (get_and_cache_data_loop_frame num_symbols symbols [] 0%Z
                    (add_trace [EvStockSymbols] w)) as (_ & Hfiles & He & _).
      destruct (run (get_and_cache_data_loop num_symbols symbols [] 0%Z) _)
        as [[batch'|e1] w2]; [done|].
      injection Hrun as <- <-. split; [exact Hfiles|]. left. by apply He.
    - injection Hrun as <- <-. split; [done|]. by right. }
  destruct Hfiles as [Hfiles He]. split; [done|]. split; [done|].
  cbn [get_symbol_data]. unfold load_cached_symbol_data. cbn [run].
  rewrite Hfiles.
  by destruct (files w !! CACHE_FILENAME) as [[batch|e0]|].
Qed.

(** ** Target counts and malformed entries *)

Lemma get_and_cache_data_all num_symbols w symbols :
  (num_symbols < 0)%Z ->
  stock_symbols (provider w) = Ok symbols ->
  Forall has_display_symbol symbols ->
  run (get_and_cache_data num_symbols) w =
  (Ok (omap (usable (provider w)) symbols),
   mkWorld (provider w)
     (<[CACHE_FILENAME := Pickle (omap (usable (provider w)) symbols)]>
        (files w))
     (trace w ++ EvStockSymbols ::
      concat (candidate_events (provider w) <$> symbols))).
Proof.
  intros Hn Hsym Hdisp. rewrite get_and_cache_data_unfold, Hsym.
  pose proof (get_and_cache_data_loop_app num_symbols symbols [] [] 0%Z
                (add_trace [EvStockSymbols] w) Hdisp) as Happ.
  rewrite app_nil_r in Happ. rewrite Happ by (right; lia).
  cbn [get_and_cache_data_loop run mret M_ret].
  rewrite !provider_add_trace, add_trace_app. cbn [app]. done.
Qed.

(** X6: A negative [num_symbols] is never reached by the counter: every
    candidate of the directory is examined and every usable one is
    returned, so the batch is longer than [num_symbols]. *)
Theorem negative_count_scans_everything num_symbols w symbols :
  (num_symbols < 0)%Z ->
  stock_symbols (provider w) = Ok symbols ->
  Forall has_display_symbol symbols ->
  exists w',
    run (get_and_cache_data num_symbols) w =
      (Ok (omap (usable (provider w)) symbols), w') /\
    trace w' = trace w ++ EvStockSymbols ::
               concat (candidate_events (provider w) <$> symbols) /\
    (num_symbols < Z.of_nat (length (omap (usable (provider w)) symbols)))%Z.
Proof.
  intros Hn Hsym Hdisp. eexists. split.
  - by apply get_and_cache_data_all.
  - split; [done|lia].
Qed.

(** X7: A directory entry without display symbol raises [KeyError] when the
    scan reaches it: the records gathered before it are lost and the cache
    is not written.  When the target count is reached before the entry,
    the entry is never looked at and the run is the one of the entries in
    front of it. *)
Theorem malformed_entry num_symbols w good bad rest :
  stock_symbols (provider w) = Ok (good ++ bad :: rest) ->
  Forall has_display_symbol good ->
  bad !! "displaySymbol" = None ->
  ((Z.of_nat (length (omap (usable (provider w)) good)) < num_symbols
    \/ num_symbols < 0)%Z ->
   exists w',
     run (get_and_cache_data num_symbols) w = (Raise KeyError, w') /\
     files w' = files w /\
     trace w' = trace w ++ EvStockSymbols ::
                concat (candidate_events (provider w) <$> good)) /\
  ((0 <= num_symbols
    <= Z.of_nat (length (omap (usable (provider w)) good)))%Z ->
   exists w',
     run (get_and_cache_data num_symbols) w =
     (Ok (take (Z.to_nat num_symbols) (omap (usable (provider w)) good)),
      w')).
Proof.
  intros Hsym Hdisp Hbad. split.
  - intros Hn. rewrite get_and_cache_data_unfold, Hsym.
    rewrite get_and_cache_data_loop_app
      by (done || (rewrite provider_add_trace; lia)).
    rewrite !provider_add_trace, add_trace_app. cbn [app].
    cbn [get_and_cache_data_loop].
    replace (_ =? num_symbols)%Z with false
      by (symmetry; apply Z.eqb_neq; lia).
    rewrite run_bind. unfold lift, getitem. rewrite Hbad. cbn [run].
    eexists. split; [done|]. done.
  - intros Hn. rewrite get_and_cache_data_unfold, Hsym.
    rewrite (get_and_cache_data_loop_reached _ _ _ _ _ _
               (Z.to_nat num_symbols))
      by (done || (rewrite ?provider_add_trace; lia)).
    rewrite (get_and_cache_data_loop_run _ _ _ _ _ (Z.to_nat num_symbols))
      by (done || lia).
    rewrite provider_add_trace, examined_usable. cbn [app]. by eexists.
Qed.

(** ** The effort of a run *)

Lemma candidate_events_cases P symbol :
  candidate_events P symbol = [] \/
  exists t rest,
    candidate_events P symbol =
      EvSleep REQUEST_DELAY :: EvHistory t :: rest /\
    (rest = [] \/ rest = [EvGetInfo t] \/
     rest = [EvGetInfo t; EvDownload t HIST_DATA_YEARS] \/
     rest = [EvGetInfo t; EvDownload t HIST_DATA_YEARS;
             EvSleep REQUEST_DELAY]).
Proof.
  unfold candidate_events.
  destruct (symbol !! "displaySymbol") as [t|]; [|by left].
  unfold validated, validate_events, fetch_events.
  destruct (yf_Ticker P t) as [[]|e0]; [|by left].
  right. exists t.
  destruct (ticker_history P t) as [data|e]; cbn [app].
  - destruct (df_empty data).
    + eexists. split; [done|]. by left.
    + destruct (ticker_get_info P t) as [info|e]; cbn [app].
      * destruct (yf_download P t HIST_DATA_YEARS); cbn [app];
          eexists; (split; [done|]); tauto.
      * eexists. split; [done|]. tauto.
  - eexists. split; [done|]. by left.
Qed.

Lemma history_paced_app evs1 evs2 :
  history_paced evs1 -> history_paced evs2 ->
  (forall t, head evs2 <> Some (EvHistory t)) ->
  history_paced (evs1 ++ evs2).
Proof.
  intros H1 H2 Hhead i t Hi.
  destruct (decide (i < length evs1)%nat) as [Hlt|Hge].
  - rewrite lookup_app_l in Hi by done.
    destruct (H1 i t Hi) as (j & -> & Hj). exists j. split; [done|].
    rewrite lookup_app_l by lia. done.
  - rewrite lookup_app_r in Hi by lia.
    destruct (H2 _ t Hi) as (j & Hij & Hj).
    exists (length evs1 + j)%nat. split; [lia|].
    rewrite lookup_app_r by lia.
    by replace (length evs1 + j - length evs1)%nat with j by lia.
Qed.

Lemma candidate_events_effort P symbol :
  (0 <= sleep_seconds (candidate_events P symbol) <= 2 * REQUEST_DELAY)%Z /\
  (provider_calls (candidate_events P symbol) <= 3)%nat /\
  history_paced (candidate_events P symbol) /\
  (forall t, head (candidate_events P symbol) <> Some (EvHistory t)).
Proof.
  destruct (candidate_events_cases P symbol)
    as [-> | (t & rest & -> & Hrest)].
  { split_and!; try done; try (vm_compute; lia); try by intros i t Hi. }
  assert (Hpaced : forall rest',
            (forall i t', rest' !! i <> Some (EvHistory t')) ->
            history_paced (EvSleep REQUEST_DELAY :: EvHistory t :: rest')).
  { intros rest' Hno i t' Hi. destruct i as [|[|i]]; cbn in Hi.
    - done.
    - by exists 0%nat.
    - by apply Hno in Hi. }
  destruct Hrest as [-> | [-> | [-> | ->]]];
    (split_and!;
     [unfold sleep_seconds, REQUEST_DELAY; cbn; lia
     |unfold sleep_seconds, REQUEST_DELAY; cbn; lia
     |vm_compute; lia | | done]);
    apply Hpaced; intros [|[|[|[|i]]]] t' Hi; done.
Qed.

Lemma concat_events_effort P symbols :
  (0 <= sleep_seconds (concat (candidate_events P <$> symbols))
     <= 2 * REQUEST_DELAY * Z.of_nat (length symbols))%Z /\
  (provider_calls (concat (candidate_events P <$> symbols))
     <= 3 * length symbols)%nat /\
  history_paced (concat (candidate_events P <$> symbols)) /\
  (forall t, head (concat (candidate_events P <$> symbols))
             <> Some (EvHistory t)).
Proof.
  induction symbols as [|symbol symbols (Hs & Hc & Hp & Hh)].
  { split_and!; try done; try (vm_compute; lia); try by intros i t Hi. }
  destruct (candidate_events_effort P symbol) as (Hs1 & Hc1 & Hp1 & Hh1).
  cbn [fmap list_fmap concat length].
  rewrite sleep_seconds_app, provider_calls_app.
  split_and!; try lia.
  - by apply history_paced_app.
  - intros t. destruct (candidate_events P symbol) as [|ev evs] eqn:Hev.
    + apply Hh.
    + apply (Hh1 t).
Qed.

Lemma examined_length P k symbols :
  (length (examined P k symbols) <= length symbols)%nat.
Proof.
  destruct (examined_prefix P k symbols) as [rest Hrest].
  apply (f_equal length) in Hrest. rewrite length_app in Hrest. lia.
Qed.

(** X8: Whatever the target count, a run over a directory of [n] entries
    makes at most [1 + 3 n] provider calls (no retry) and sleeps at most
    [2 n] times [REQUEST_DELAY] seconds, and each latest-session query
    comes right after a sleep of [REQUEST_DELAY] seconds. *)
Theorem run_effort_is_bounded num_symbols w symbols :
  stock_symbols (provider w) = Ok symbols ->
  Forall has_display_symbol symbols ->
  exists batch w' new,
    run (get_and_cache_data num_symbols) w = (Ok batch, w') /\
    trace w' = trace w ++ new /\
    (0 <= sleep_seconds new
       <= 2 * REQUEST_DELAY * Z.of_nat (length symbols))%Z /\
    (provider_calls new <= 1 + 3 * length symbols)%nat /\
    history_paced new.
Proof.
  intros Hsym Hdisp.
  assert (Hbound : forall scanned,
    (length scanned <= length symbols)%nat ->
    (0 <= sleep_seconds (EvStockSymbols ::
            concat (candidate_events (provider w) <$> scanned))
       <= 2 * REQUEST_DELAY * Z.of_nat (length symbols))%Z /\
    (provider_calls (EvStockSymbols ::
            concat (candidate_events (provider w) <$> scanned))
       <= 1 + 3 * length symbols)%nat /\
    history_paced (EvStockSymbols ::
            concat (candidate_events (provider w) <$> scanned))).
  { intros scanned Hlen.
    destruct (concat_events_effort (provider w) scanned)
      as (Hs & Hc & Hp & Hh).
    change (EvStockSymbols :: concat (candidate_events (provider w) <$>
                                         scanned))
      with ([EvStockSymbols] ++
            concat (candidate_events (provider w) <$> scanned)).
    rewrite sleep_seconds_app, provider_calls_app.
    change (sleep_seconds [EvStockSymbols]) with 0%Z.
    change (provider_calls [EvStockSymbols]) with 1%nat.
    unfold REQUEST_DELAY in *. split_and!; try lia; try nia.
    apply history_paced_app; [|done..].
    intros [|i] t Hi; done. }
  destruct (Z_lt_le_dec num_symbols 0) as [Hneg|Hpos].
  - eexists _, _, _. split; [by apply get_and_cache_data_all|].
    split; [done|]. by apply Hbound.
  - eexists _, _, _.
    split; [by apply get_and_cache_data_run|].
    split; [done|]. apply Hbound, examined_length.
Qed.

(** ** The further properties on the sample worlds *)

Lemma sample_run :
  run (get_and_cache_data 2) sample_world =
  (Ok [rising_record; flat_record],
   (run (get_and_cache_data 2) sample_world).2).
Proof. vm_compute. reflexivity. Qed.

Lemma offline_run :
  run (get_and_cache_data 2) offline_world =
  (Raise ProviderError, (run (get_and_cache_data 2) offline_world).2).
Proof. vm_compute. reflexivity. Qed.

Lemma fresh_run_is_cached_witness :
  run (get_and_cache_data 2) sample_world =
    (Ok [rising_record; flat_record],
     (run (get_and_cache_data 2) sample_world).2) /\
  run (get_symbol_data true 100)
      (run (get_and_cache_data 2) sample_world).2 =
    (Ok [rising_record; flat_record],
     (run (get_and_cache_data 2) sample_world).2).
Proof.
  split; [exact sample_run|].
  exact (proj2 (fresh_run_is_cached 2 100 sample_world _ _ sample_run)).
Defined.

Lemma fresh_run_has_no_page_witness :
  run (get_and_cache_data 2) sample_world =
    (Ok [rising_record; flat_record],
     (run (get_and_cache_data 2) sample_world).2) /\
  generate_report (fun _ _ _ => None) [rising_record; flat_record] = Some "".
Proof.
  split; [exact sample_run|].
  exact (proj2 (fresh_run_has_no_page 2 sample_world _ _ sample_run)
               (fun _ _ _ => None)).
Defined.

Lemma failed_run_keeps_cache_witness :
  run (get_and_cache_data 2) offline_world =
    (Raise ProviderError, (run (get_and_cache_data 2) offline_world).2) /\
  (run (get_symbol_data true 100)
       (run (get_and_cache_data 2) offline_world).2).1 =
  Ok [flat_record].
Proof.
  split; [exact offline_run|].
  destruct (failed_run_keeps_cache 2 100 offline_world _ _ offline_run)
    as (_ & _ & Hread).
  rewrite Hread. vm_compute. reflexivity.
Defined.

Lemma negative_count_scans_everything_witness :
  ((-1 < 0)%Z /\
   stock_symbols (provider sample_world) = Ok sample_symbols /\
   Forall has_display_symbol sample_symbols) /\
  (run (get_and_cache_data (-1)) sample_world).1 =
  Ok [rising_record; flat_record].
Proof.
  assert (Hn : (-1 < 0)%Z) by lia.
  assert (Hsym : stock_symbols (provider sample_world) = Ok sample_symbols)
    by reflexivity.
  split; [split; [exact Hn | split; [exact Hsym |
                                     exact sample_symbols_display]] |].
  destruct (negative_count_scans_everything (-1) sample_world sample_symbols
              Hn Hsym sample_symbols_display) as (w' & Hrun & _).
  rewrite Hrun. vm_compute. reflexivity.
Defined.

Lemma malformed_entry_witness :
  (stock_symbols (provider malformed_world) =
     Ok ([ {["displaySymbol" := "A"]} ] ++
         {["symbol" := "B"]} :: [ {["displaySymbol" := "C"]} ]) /\
   Forall has_display_symbol [ ({["displaySymbol" := "A"]}
                                : gmap string string) ] /\
   ({["symbol" := "B"]} : gmap string string) !! "displaySymbol" = None) /\
  (run (get_and_cache_data 2) malformed_world).1 = Raise KeyError /\
  (run (get_and_cache_data 1) malformed_world).1 = Ok [rising_record].
Proof.
  assert (Hsym : stock_symbols (provider malformed_world) =
            Ok ([ {["displaySymbol" := "A"]} ] ++
                {["symbol" := "B"]} :: [ {["displaySymbol" := "C"]} ]))
    by reflexivity.
  assert (Hdisp : Forall has_display_symbol
                    [ ({["displaySymbol" := "A"]} : gmap string string) ])
    by (apply Forall_cons_2; [by eexists | apply Forall_nil_2]).
  assert (Hbad : ({["symbol" := "B"]} : gmap string string)
                   !! "displaySymbol" = None) by reflexivity.
  split; [by split_and!|]. split.
  - destruct (malformed_entry 2 malformed_world _ _ _ Hsym Hdisp Hbad)
      as [Hraise _].
    destruct Hraise as (w' & Hrun & _).
    { left. vm_compute. reflexivity. }
    by rewrite Hrun.
  - destruct (malformed_entry 1 malformed_world _ _ _ Hsym Hdisp Hbad)
      as [_ Hok].
    destruct Hok as (w' & Hrun).
    { vm_compute. split; congruence. }
    rewrite Hrun. vm_compute. reflexivity.
Defined.

Lemma run_effort_is_bounded_witness :
  (stock_symbols (provider sample_world) = Ok sample_symbols /\
   Forall has_display_symbol sample_symbols) /\
  exists batch w' new,
    run (get_and_cache_data 2) sample_world = (Ok batch, w') /\
    trace w' = trace sample_world ++ new /\
    (0 <= sleep_seconds new
       <= 2 * REQUEST_DELAY * Z.of_nat (length sample_symbols))%Z /\
    (provider_calls new <= 1 + 3 * length sample_symbols)%nat /\
    history_paced new.
Proof.
  assert (Hsym : stock_symbols (provider sample_world) = Ok sample_symbols)
    by reflexivity.
  split; [split; [exact Hsym | exact sample_symbols_display] |].
  exact (run_effort_is_bounded 2 sample_world sample_symbols Hsym
           sample_symbols_display).
Defined.

(** * Further properties of data_analysis.py *)

(** ** Outcomes of [determine_exp_trend] *)

Lemma ss_res_nonneg ys ps : (0 <= ss_res ys ps)%R.
Proof.
  unfold ss_res. revert ps.
  induction ys as [|y ys IH]; intros [|p ps]; cbn [zip_with];
    try (cbn; lra).
  rewrite Rsum_cons. pose proof (IH ps).
  pose proof (Rle_0_sqr (y - p)) as Hsq. unfold Rsqr in Hsq. lra.
Qed.

Lemma sq_dev_nonneg ys : (0 <= sq_dev ys)%R.
Proof. unfold sq_dev. apply Rsum_squares_nonneg. Qed.

Lemma r2_score_cases y_true y_pred r :
  r2_score y_true y_pred = Ok r ->
  (r = NaN /\ (length y_pred < 2)%nat) \/
  (exists v, r = Fin v /\ (v <= 1)%R /\ (2 <= length y_pred)%nat).
Proof.
  unfold r2_score.
  destruct (finite_values y_true) as [ys|] eqn:Hys; [|done].
  destruct (finite_values y_pred) as [ps|] eqn:Hps; [|done].
  apply finite_values_Some in Hps. subst y_pred. rewrite length_fmap.
  case_bool_decide; [|done]. case_bool_decide.
  { intros [= <-]. by left. }
  assert (2 <= length ps)%nat by lia.
  destruct (Req_dec_T (ss_res ys ps) 0).
  { intros [= <-]. right. exists 1%R. split_and!; [done|lra|done]. }
  destruct (Req_dec_T (sq_dev ys) 0) as [|Hden].
  { intros [= <-]. right. exists 0%R. split_and!; [done|lra|done]. }
  intros [= <-]. right. eexists. split_and!; [done| |done].
  pose proof (ss_res_nonneg ys ps). pose proof (sq_dev_nonneg ys).
  assert (0 <= ss_res ys ps / sq_dev ys)%R
    by (apply Rle_mult_inv_pos; lra).
  lra.
Qed.

Lemma determine_exp_trend_returns data r2_threshold :
  dropna data <> [] -> Forall is_positive (dropna data) ->
  exists out, determine_exp_trend data r2_threshold = Ok out.
Proof.
  intros Hne Hpos.
  destruct (np_log_all_positive _ Hpos) as [ys [Hlog Hys]].
  destruct (fit_finite (np_arange (length (dropna data))) ys)
    as [model Hfit].
  { by rewrite length_np_arange. }
  { intros ->. destruct (dropna data); [done|]. cbn in Hys. lia. }
  rewrite <- Hlog in Hfit.
  unfold determine_exp_trend. rewrite Hfit. cbn [mbind result_bind].
  rewrite Hlog, predict_Fin.
  unfold r2_score. rewrite !finite_values_Fin.
  rewrite bool_decide_eq_true_2
    by (by rewrite length_fmap, length_np_arange).
  cbn [mbind result_bind].
  case_bool_decide; cbn [mbind result_bind].
  { destruct (fge NaN r2_threshold && _); eauto. }
  destruct (Req_dec_T _ 0); cbn [mbind result_bind].
  { destruct (fge (Fin 1) r2_threshold && _); eauto. }
  destruct (Req_dec_T _ 0); cbn [mbind result_bind];
    match goal with |- context [if ?c then _ else _] => destruct c end;
    eauto.
Qed.

(** X9: [determine_exp_trend] returns exactly on the series that keep at
    least one observation once the missing ones are dropped, all of them
    positive and finite; on every other series it raises, and what it
    raises is always the regression's [ValueError]. *)
Theorem determine_exp_trend_outcomes data r2_threshold :
  ((exists out, determine_exp_trend data r2_threshold = Ok out) <->
   dropna data <> [] /\ Forall is_positive (dropna data)) /\
  (forall e, determine_exp_trend data r2_threshold = Raise e ->
             e = ValueError).
Proof.
  split; [split|].
  - intros [out Hout]. unfold determine_exp_trend in Hout.
    destruct (LinearRegression_fit _ _) as [model|e] eqn:Hfit; [|done].
    apply fit_Ok_finite in Hfit as (ys & Hlog & Hne & _).
    split; [|by eapply log_finite_positive].
    intros Hnil. rewrite Hnil in Hlog. by destruct ys.
  - intros [Hne Hpos]. by apply determine_exp_trend_returns.
  - intros e He.
    destruct (LinearRegression_fit (np_arange (length (dropna data)))
                (np_log <$> dropna data)) as [model|e'] eqn:Hfit.
    + apply fit_Ok_finite in Hfit as (ys & Hlog & Hne & _).
      destruct (determine_exp_trend_returns data r2_threshold)
        as [out Hout]; [| |congruence].
      * intros Hnil. rewrite Hnil in Hlog. by destruct ys.
      * by eapply log_finite_positive.
    + rewrite (determine_exp_trend_fit_raises _ _ _ Hfit) in He.
      injection He as <-. unfold LinearRegression_fit in Hfit.
      destruct (finite_values _) as [ys|]; [|by simplify_eq].
      case_bool_decide; [|by simplify_eq].
      destruct ys; by simplify_eq.
Qed.

Lemma classified_r2 data r2_threshold r2o predicted :
  determine_exp_trend data r2_threshold = Ok (true, r2o, predicted) ->
  exists v,
    r2o = Some (Fin v) /\ fge (Fin v) r2_threshold = true /\ (v <= 1)%R /\
    (2 <= length (dropna data))%nat.
Proof.
  unfold determine_exp_trend.
  destruct (LinearRegression_fit _ _) as [model|e]; [|done].
  cbn [mbind result_bind].
  destruct (r2_score _ _) as [r|e] eqn:Hr2; [|done].
  cbn [mbind result_bind].
  destruct (fge r r2_threshold) eqn:Hge; [|done].
  destruct (fgt _ _); [|done]. cbn. intros [= <- _].
  apply r2_score_cases in Hr2 as [[-> _]|(v & -> & Hv & Hlen)]; [done|].
  unfold predict in Hlen. rewrite length_fmap, length_np_arange in Hlen.
  by exists v.
Qed.

(** X10: A series is classified exponential only with at least two
    observations left, all positive; the reported R^2 is then a number,
    never NaN, between the threshold and 1, and the predicted series has
    one entry per remaining observation. *)
Theorem classified_result_shape data r2_threshold r2o predicted :
  determine_exp_trend data r2_threshold = Ok (true, r2o, predicted) ->
  (2 <= length (dropna data))%nat /\
  Forall is_positive (dropna data) /\
  exists v trend,
    r2o = Some (Fin v) /\ fge (Fin v) r2_threshold = true /\ (v <= 1)%R /\
    predicted = Some trend /\
    length trend = length (dropna data).
Proof.
  intros Hrun.
  destruct (exponential_inv _ _ _ _ Hrun)
    as (Hpos & _ & r2v & trend & Hr2 & -> & Htrend).
  destruct (classified_r2 _ _ _ _ Hrun) as (v & -> & Hge & Hv & Hlen).
  split; [done|]. split; [done|]. by exists v, trend.
Qed.

Lemma classified_result_shape_witness :
  (exists predicted,
     determine_exp_trend [Fin 1; Fin 2] default_r2_threshold =
     Ok (true, Some (Fin 1), Some predicted)) /\
  (2 <= length (dropna [Fin 1; Fin 2]))%nat.
Proof.
  destruct (two_point_trend 1 2 default_r2_threshold) as [predicted H];
    [lra | lra | apply default_threshold_below_one |].
  split; [by exists predicted|].
  exact (proj1 (classified_result_shape _ _ _ _ H)).
Defined.

Lemma determine_exp_trend_dropna data1 data2 r2_threshold :
  dropna data1 = dropna data2 ->
  determine_exp_trend data1 r2_threshold =
  determine_exp_trend data2 r2_threshold.
Proof. intros H. unfold determine_exp_trend. by rewrite H. Qed.

(** X11: Missing observations are dropped before the time index is built: a
    missing value anywhere in the series changes nothing, the points
    after it move one step up. *)
Theorem missing_observation_ignored before after r2_threshold :
  determine_exp_trend (before ++ NaN :: after) r2_threshold =
  determine_exp_trend (before ++ after) r2_threshold.
Proof.
  apply determine_exp_trend_dropna. unfold dropna.
  rewrite !filter_app. by rewrite filter_cons_False by done.
Qed.

(** ** The growth rate, further *)

(** X14: On a frame of one column [determine_cagr] raises in two cases only:
    [IndexError] on an empty history, [ZeroDivisionError] on [years = 0].
    There is no check of the prices: an initial price of 0 under a
    positive final price gives [inf], a missing first observation gives
    NaN, and neither raises.  On a plain series the double index raises
    [IndexError] whatever the prices. *)
Theorem determine_cagr_outcomes data years :
  (determine_cagr (OneColumnFrame data) years = Raise IndexError <->
   data = []) /\
  (determine_cagr (OneColumnFrame data) years = Raise ZeroDivisionError <->
   data <> [] /\ years = 0%R) /\
  ((exists v, determine_cagr (OneColumnFrame data) years = Ok v) <->
   data <> [] /\ years <> 0%R) /\
  (forall b, head data = Some (Fin 0) -> last data = Some (Fin b) ->
             (0 < b)%R -> (0 < years)%R ->
             determine_cagr (OneColumnFrame data) years = Ok PInf) /\
  (head data = Some NaN -> years <> 0%R ->
   determine_cagr (OneColumnFrame data) years = Ok NaN) /\
  determine_cagr (PlainSeries data) years = Raise IndexError.
Proof.
  assert (Hseries : determine_cagr (PlainSeries data) years =
                    Raise IndexError).
  { unfold determine_cagr. rewrite iloc_first. by destruct data. }
  rewrite determine_cagr_frame.
  destruct data as [|f data]; cbn [head].
  { split_and!; try done.
    - split; [done|]. by intros [? _].
    - split; [by intros [? ?]|]. by intros [? _]. }
  assert (exists fl, last (f :: data) = Some fl) as [fl Hlast]
    by (by apply last_is_Some).
  rewrite Hlast. destruct (Req_dec_T years 0) as [Hy|Hy].
  - split_and!; try done.
    + split; [by intros [? ?]|]. by intros [_ ?].
    + intros b _ _ _ Hpos. lra.
  - split_and!; try done.
    + split; [done|]. by intros [_ ?].
    + split; [done|]. eauto.
    + intros b [= ->] [= ->] Hb Hpos. do 2 f_equal.
      unfold fdiv. destruct (Req_dec_T 0 0); [|done].
      destruct (Rlt_dec 0 b); [|done]. unfold fpow.
      assert (0 < 1 / years)%R by (apply Rdiv_lt_0_compat; lra).
      destruct (Req_dec_T (1 / years) 0); [lra|].
      by destruct (Rlt_dec 0 (1 / years)).
    + intros [= ->] _. do 2 f_equal.
      unfold fdiv, fpow. destruct fl; cbn;
        destruct (Req_dec_T (1 / years) 0) as [H0|_]; try done;
        exfalso; apply (Rmult_eq_compat_r years) in H0;
        unfold Rdiv in H0; rewrite Rmult_assoc, Rinv_l in H0 by done; lra.
Qed.

(** X15: On a frame of one column only the first and the last price of the
    history enter the rate: the prices in between never matter, be they
    missing, zero or negative. *)
Theorem determine_cagr_endpoints years first final middle1 middle2 :
  determine_cagr (OneColumnFrame (first :: middle1 ++ [final])) years =
  determine_cagr (OneColumnFrame (first :: middle2 ++ [final])) years.
Proof.
  rewrite !determine_cagr_frame.
  cbn [head]. by rewrite !last_cons, !last_snoc.
Qed.

(** ** The analysis pass, further *)

Lemma analyse_symbols_body_idempotent sd :
  analyse_symbols_body (analyse_symbols_body sd).1 = analyse_symbols_body sd.
Proof.
  unfold analyse_symbols_body.
  destruct (determine_exp_trend (symbol_hist_data sd) default_r2_threshold)
    as [[[[] r2o] predicted]|e] eqn:Htrend; cbn [fst].
  - destruct (getitem (symbol_info sd) "symbol" ≫= _) as [c|e] eqn:Hplot;
      cbn [fst].
    + destruct (determine_cagr _ _) as [g|e] eqn:Hcagr; cbn [fst];
        cbn [set_r2 set_cagr symbol_hist_data symbol_info r2 cagr] in *;
        rewrite Htrend, Hplot; cbn [set_r2 symbol_hist_data];
        rewrite Hcagr; done.
    + by rewrite Htrend, Hplot.
  - by rewrite Htrend.
  - by rewrite Htrend.
Qed.

(** X16: Analysing a list again changes nothing: a second pass returns the
    list of the first and ends with the same outcome, also when the first
    one was stopped by an exception. *)
Theorem analyse_symbols_idempotent symbol_data_list :
  analyse_symbols (analyse_symbols symbol_data_list).1 =
  analyse_symbols symbol_data_list.
Proof.
  induction symbol_data_list as [|sd rest IH]; [done|].
  cbn [analyse_symbols].
  pose proof (analyse_symbols_body_idempotent sd) as Hbody.
  destruct (analyse_symbols_body sd) as [sd' [e|]] eqn:Hsd; cbn [fst] in *.
  - cbn [analyse_symbols]. by rewrite Hbody.
  - destruct (analyse_symbols rest) as [rest' out] eqn:Hrest.
    cbn [fst] in *. cbn [analyse_symbols]. by rewrite Hbody, IH.
Qed.

Lemma analyse_symbols_completed symbol_data_list :
  (analyse_symbols symbol_data_list).2 = None ->
  Forall (fun sd => (analyse_symbols_body sd).2 = None) symbol_data_list /\
  (analyse_symbols symbol_data_list).1 =
  (fun sd => (analyse_symbols_body sd).1) <$> symbol_data_list.
Proof.
  induction symbol_data_list as [|sd rest IH]; [by split|].
  cbn [analyse_symbols].
  destruct (analyse_symbols_body sd) as [sd' [e|]] eqn:Hsd; [done|].
  destruct (analyse_symbols rest) as [rest' out]. cbn [fst snd] in *.
  intros Hout. destruct (IH Hout) as [Hall Hrest]. split.
  - apply Forall_cons_2; [by rewrite Hsd|done].
  - by rewrite fmap_cons, Hsd, Hrest.
Qed.

(** X17: The pass analyses the records in order and stops at the first one
    whose analysis raises: when it ends without exception every record
    has been analysed; when it ends with an exception the records in front
    of the failing one have been analysed and the ones behind it are
    untouched. *)
Theorem analyse_symbols_stops_at_first_failure symbol_data_list :
  match (analyse_symbols symbol_data_list).2 with
  | None =>
      Forall (fun sd => (analyse_symbols_body sd).2 = None)
             symbol_data_list /\
      (analyse_symbols symbol_data_list).1 =
      (fun sd => (analyse_symbols_body sd).1) <$> symbol_data_list
  | Some e =>
      exists before sd after,
        symbol_data_list = before ++ sd :: after /\
        Forall (fun s => (analyse_symbols_body s).2 = None) before /\
        (analyse_symbols_body sd).2 = Some e /\
        (analyse_symbols symbol_data_list).1 =
        ((fun s => (analyse_symbols_body s).1) <$> before) ++
        (analyse_symbols_body sd).1 :: after
  end.
Proof.
  induction symbol_data_list as [|sd rest IH]; [by split|].
  cbn [analyse_symbols].
  destruct (analyse_symbols_body sd) as [sd' [e|]] eqn:Hsd; cbn [fst snd].
  - exists [], sd, rest. rewrite Hsd. by split_and!.
  - destruct (analyse_symbols rest) as [rest' [e|]]; cbn [fst snd] in *.
    + destruct IH as (before & s & after & -> & Hbefore & Hs & Hrest).
      exists (sd :: before), s, after. split_and!; try done.
      * apply Forall_cons_2; [by rewrite Hsd|done].
      * rewrite fmap_cons, Hsd, Hrest. done.
    + destruct IH as [Hall Hrest]. split.
      * apply Forall_cons_2; [by rewrite Hsd|done].
      * by rewrite fmap_cons, Hsd, Hrest.
Qed.

(** * Properties of report_generator.py *)

Lemma string_app_assoc (s1 s2 s3 : string) :
  (s1 +:+ s2) +:+ s3 = s1 +:+ (s2 +:+ s3).
Proof.
  induction s1 as [|c s1 IH]; [done|]. exact (f_equal (String c) IH).
Qed.

Lemma string_app_nil_r (s : string) : s +:+ "" = s.
Proof.
  induction s as [|c s IH]; [done|]. exact (f_equal (String c) IH).
Qed.

Lemma generate_report_loop_spec render symbol_data_list :
  forall report_html,
  generate_report_loop render symbol_data_list report_html =
  (fun pages => report_html +:+ foldr String.append "" pages) <$>
  mapM (fun sd => render (symbol_info sd) (r2 sd) (cagr sd))
       (filter (fun sd => fne (r2 sd) (Fin 0) = true) symbol_data_list).
Proof.
  induction symbol_data_list as [|sd rest IH]; intros html.
  { cbn. by rewrite string_app_nil_r. }
  cbn [generate_report_loop].
  destruct (fne (r2 sd) (Fin 0)) eqn:Hne.
  - rewrite filter_cons_True by done. cbn [mapM].
    destruct (render (symbol_info sd) (r2 sd) (cagr sd)) as [page|];
      [|done].
    rewrite IH. cbn [mbind option_bind].
    destruct (mapM _ _) as [pages|]; [|done]. cbn.
    by rewrite string_app_assoc.
  - rewrite filter_cons_False by (by rewrite Hne). apply IH.
Qed.

(** X18: The report is made of the pages of the records whose [r2] differs
    from 0.0, in the order of the list; a record with [r2 = 0.0] is never
    handed to the renderer, and the report fails when one of the selected
    pages cannot be rendered. *)
Theorem generate_report_selects render symbol_data_list :
  generate_report render symbol_data_list =
  (fun pages => foldr String.append "" pages) <$>
  mapM (fun sd => render (symbol_info sd) (r2 sd) (cagr sd))
       (filter (fun sd => fne (r2 sd) (Fin 0) = true) symbol_data_list).
Proof. unfold generate_report. by rewrite generate_report_loop_spec. Qed.

Lemma fne_positive v : (0 < v)%R -> fne (Fin v) (Fin 0) = true.
Proof.
  intros Hv. cbn. unfold Reqb. destruct (Req_dec_T v 0); [lra|done].
Qed.

Lemma threshold_positive v :
  fge (Fin v) default_r2_threshold = true -> (0 < v)%R.
Proof.
  unfold default_r2_threshold, fge, Rleb.
  destruct (Rle_dec (8 / 10) v); [lra|done].
Qed.

Lemma analyse_symbols_body_marks sd :
  fresh sd -> (analyse_symbols_body sd).2 = None ->
  fne (r2 (analyse_symbols_body sd).1) (Fin 0) = true <->
  classified_exponential (symbol_hist_data sd).
Proof.
  intros [Hr2 _]. unfold analyse_symbols_body, classified_exponential.
  destruct (determine_exp_trend (symbol_hist_data sd) default_r2_threshold)
    as [[[[] r2o] predicted]|e] eqn:Htrend; cbn [fst snd].
  - destruct (classified_r2 _ _ _ _ Htrend) as (v & -> & Hge & _).
    destruct (getitem (symbol_info sd) "symbol" ≫= _); [|done].
    destruct (determine_cagr _ _); [|done].
    intros _. cbn. split; [eauto|]. intros _.
    apply fne_positive. by apply threshold_positive.
  - intros _. rewrite Hr2. split.
    + cbn. unfold Reqb. by destruct (Req_dec_T 0 0).
    + by intros (? & ? & ?).
  - done.
Qed.

(** X19: On records that carry the defaults, a pass that ends without
    exception leaves [r2] different from 0.0 exactly on the records it
    classified exponential: these are the records [generate_report]
    gives a page to.  (The histories are frames of one column: on a plain
    series no pass over a classified record ends without exception.) *)
Theorem analysed_r2_marks_exponential symbol_data_list :
  Forall fresh symbol_data_list ->
  (analyse_symbols symbol_data_list).2 = None ->
  Forall2
    (fun before after =>
       fne (r2 after) (Fin 0) = true <->
       classified_exponential (symbol_hist_data before))
    symbol_data_list (analyse_symbols symbol_data_list).1.
Proof.
  intros Hfresh Hnone.
  destruct (analyse_symbols_completed symbol_data_list Hnone) as [Hall ->].
  apply Forall2_fmap_r, Forall_Forall2_diag.
  apply Forall_forall. intros sd Hin.
  apply analyse_symbols_body_marks.
  - eapply Forall_forall in Hfresh; done.
  - eapply Forall_forall in Hall; done.
Qed.

Lemma analysed_r2_marks_exponential_witness :
  (Forall fresh [rising_record; flat_record] /\
   (analyse_symbols [rising_record; flat_record]).2 = None) /\
  (exists after_rising after_flat,
     (analyse_symbols [rising_record; flat_record]).1 =
       [after_rising; after_flat] /\
     fne (r2 after_rising) (Fin 0) = true /\
     fne (r2 after_flat) (Fin 0) = false).
Proof.
  assert (Hfresh : Forall fresh [rising_record; flat_record])
    by (repeat (apply Forall_cons_2; [by split|]); apply Forall_nil_2).
  assert (Hflat : determine_exp_trend (symbol_hist_data flat_record)
                    default_r2_threshold = Ok (false, None, None)).
  { destruct (constant_series_run [Fin 5; Fin 5] 2 5
                default_r2_threshold) as (_ & _ & H);
      [done | lia | lra | exact H]. }
  assert (Hpass : analyse_symbols [rising_record; flat_record] =
                  ([(analyse_symbols_body rising_record).1; flat_record],
                   None)).
  { cbn [analyse_symbols]. rewrite rising_record_analysed.
    by rewrite (analyse_symbols_body_unclassified flat_record None None). }
  assert (Hnone : (analyse_symbols [rising_record; flat_record]).2 = None)
    by (by rewrite Hpass).
  split; [by split|].
  pose proof (analysed_r2_marks_exponential _ Hfresh Hnone) as Hmarks.
  rewrite Hpass in Hmarks |- *. cbn [fst] in Hmarks |- *.
  apply Forall2_cons in Hmarks as [Hrising Hrest].
  apply Forall2_cons in Hrest as [Hflat' _].
  eexists _, _. split; [reflexivity|]. split.
  - apply Hrising. exact rising_record_classified.
  - destruct (fne (r2 flat_record) (Fin 0)) eqn:Hne; [|done].
    destruct (proj1 Hflat' eq_refl) as (r2o & predicted & Hcls).
    rewrite Hcls in Hflat. done.
Defined.

(** * Further properties: cache reads, thresholds, target counts *)

(** X21: Reading a cache that is missing or cannot be unpickled is fatal:
    [get_symbol_data] raises [FileNotFoundError] when there is no cache
    file, and the exception of [pickle.load] when the file cannot be
    read; it does not fall back on a fresh acquisition: no provider is
    called and no file is written. *)
Theorem cache_read_failure_is_fatal num_symbols w :
  (files w !! CACHE_FILENAME = None ->
   run (get_symbol_data true num_symbols) w = (Raise FileNotFoundError, w)) /\
  (forall e, files w !! CACHE_FILENAME = Some (Unreadable e) ->
   run (get_symbol_data true num_symbols) w = (Raise e, w)).
Proof.
  cbn [get_symbol_data]. unfold load_cached_symbol_data. cbn [run].
  split; [intros -> | intros e ->]; done.
Qed.

Lemma cache_read_failure_is_fatal_witness :
  files sample_world !! CACHE_FILENAME = None /\
  run (get_symbol_data true 100) sample_world =
    (Raise FileNotFoundError, sample_world).
Proof.
  assert (Hno : files sample_world !! CACHE_FILENAME = None) by reflexivity.
  split; [exact Hno|].
  exact (proj1 (cache_read_failure_is_fatal 100 sample_world) Hno).
Defined.

Lemma fge_trans_threshold r t t' :
  fge r (Fin t) = true -> (t' <= t)%R -> fge r (Fin t') = true.
Proof.
  destruct r as [x| | |]; try done. cbn. unfold Rleb.
  destruct (Rle_dec t x); [|done]. intros _ Hle.
  destruct (Rle_dec t' x); [done|lra].
Qed.

(** X22: Lowering the threshold never unclassifies: a series classified
    exponential under a threshold is classified under every lower one,
    with the same R^2 and the same predicted series. *)
Theorem lower_threshold_keeps_classification data t t' r2o predicted :
  determine_exp_trend data (Fin t) = Ok (true, r2o, predicted) ->
  (t' <= t)%R ->
  determine_exp_trend data (Fin t') = Ok (true, r2o, predicted).
Proof.
  unfold determine_exp_trend.
  destruct (LinearRegression_fit _ _) as [model|e]; [|done].
  cbn [mbind result_bind].
  destruct (r2_score _ _) as [r|e]; [|done]. cbn [mbind result_bind].
  destruct (fge r (Fin t)) eqn:Hge; [|done].
  intros Hrun Hle. by rewrite (fge_trans_threshold r t t' Hge Hle).
Qed.

Lemma lower_threshold_keeps_classification_witness :
  (exists predicted,
     determine_exp_trend [Fin 1; Fin 2] (Fin (8 / 10)) =
     Ok (true, Some (Fin 1), Some predicted)) /\
  (1 / 2 <= 8 / 10)%R /\
  exists predicted,
    determine_exp_trend [Fin 1; Fin 2] (Fin (1 / 2)) =
    Ok (true, Some (Fin 1), Some predicted).
Proof.
  destruct (two_point_trend 1 2 default_r2_threshold) as [predicted H];
    [lra | lra | apply default_threshold_below_one |].
  assert (Hle : (1 / 2 <= 8 / 10)%R) by lra.
  split; [by exists predicted|]. split; [exact Hle|].
  exists predicted.
  exact (lower_threshold_keeps_classification _ _ _ _ _ H Hle).
Defined.

(** X23: Asking for more symbols only appends: over the same directory and the
    same provider answers, the batch of a smaller target count is the
    beginning of the batch of a larger one. *)
Theorem larger_count_extends_batch smaller larger w symbols :
  (0 <= smaller <= larger)%Z ->
  stock_symbols (provider w) = Ok symbols ->
  Forall has_display_symbol symbols ->
  exists batch1 batch2 w1 w2,
    run (get_and_cache_data smaller) w = (Ok batch1, w1) /\
    run (get_and_cache_data larger) w = (Ok batch2, w2) /\
    batch1 = take (Z.to_nat smaller) batch2.
Proof.
  intros Hn Hsym Hdisp.
  pose proof (get_and_cache_data_run smaller w symbols) as H1.
  pose proof (get_and_cache_data_run larger w symbols) as H2.
  cbn zeta in H1, H2.
  rewrite examined_usable in H1 by lia. rewrite examined_usable in H2 by lia.
  eexists _, _, _, _. split; [apply H1; (done || lia)|].
  split; [apply H2; (done || lia)|].
  rewrite take_take. f_equal. lia.
Qed.

Lemma larger_count_extends_batch_witness :
  ((0 <= 1 <= 2)%Z /\
   stock_symbols (provider sample_world) = Ok sample_symbols /\
   Forall has_display_symbol sample_symbols) /\
  exists batch1 batch2 w1 w2,
    run (get_and_cache_data 1) sample_world = (Ok batch1, w1) /\
    run (get_and_cache_data 2) sample_world = (Ok batch2, w2) /\
    batch1 = take (Z.to_nat 1) batch2.
Proof.
  assert (Hn : (0 <= 1 <= 2)%Z) by lia.
  assert (Hsym : stock_symbols (provider sample_world) = Ok sample_symbols)
    by reflexivity.
  split; [split; [exact Hn | split; [exact Hsym |
                                     exact sample_symbols_display]] |].
  exact (larger_count_extends_batch 1 2 sample_world sample_symbols Hn Hsym
           sample_symbols_display).
Defined.

Lemma validated_Some P t info :
  validated P t = Some info ->
  exists data,
    ticker_history P t = Ok data /\ df_empty data = false /\
    ticker_get_info P t = Ok info.
Proof.
  unfold validated. destruct (yf_Ticker P t); [|done].
  destruct (ticker_history P t) as [data|]; [|done].
  destruct (df_empty data) eqn:Hempty; [done|].
  destruct (ticker_get_info P t); [|done]. intros [= <-]. by exists data.
Qed.

Lemma download_events_validated P (symbols : list (gmap string string)) t y :
  EvDownload t y ∈ concat (candidate_events P <$> symbols) ->
  y = HIST_DATA_YEARS /\
  (exists symbol, symbol ∈ symbols /\ symbol !! "displaySymbol" = Some t) /\
  exists data info,
    ticker_history P t = Ok data /\ df_empty data = false /\
    ticker_get_info P t = Ok info.
Proof.
  induction symbols as [|symbol symbols IH].
  { cbn. intros Hin. by apply elem_of_nil in Hin. }
  cbn [fmap list_fmap concat]. rewrite elem_of_app. intros [Hin|Hin].
  - unfold candidate_events in Hin.
    destruct (symbol !! "displaySymbol") as [t'|] eqn:Hsym;
      [|by apply elem_of_nil in Hin].
    apply elem_of_app in Hin as [Hin|Hin].
    { unfold validate_events in Hin.
      destruct (yf_Ticker P t'); [|by apply elem_of_nil in Hin].
      apply list_elem_of_In in Hin.
      cbn in Hin. destruct Hin as [?|[?|Hin]]; try done.
      destruct (ticker_history P t') as [data|]; [|done].
      destruct (df_empty data); cbn in Hin; [done|].
      by destruct Hin as [?|[]]. }
    destruct (validated P t') as [info|] eqn:Hval;
      [|by apply elem_of_nil in Hin].
    unfold fetch_events in Hin. apply list_elem_of_In in Hin.
    cbn in Hin. destruct Hin as [[= <- <-]|Hin].
    + split; [done|]. split.
      * exists symbol. split; [apply list_elem_of_here|done].
      * apply validated_Some in Hval as (data & ? & ? & ?). eauto.
    + destruct (yf_download P t' HIST_DATA_YEARS); cbn in Hin;
        [by destruct Hin as [?|[]]|done].
  - destruct (IH Hin) as (Hy & (s & Hs & Hst) & Hv).
    split; [done|]. split; [|done].
    exists s. split; [by apply list_elem_of_further|done].
Qed.

Lemma examined_subseteq P k symbols symbol :
  symbol ∈ examined P k symbols -> symbol ∈ symbols.
Proof.
  destruct (examined_prefix P k symbols) as [rest Hrest]. intros Hin.
  rewrite Hrest. apply elem_of_app. by left.
Qed.

(** X24: A price history is downloaded only for a ticker of the directory that
    has just been validated (a non-empty latest session and an info
    answer), and always over [HIST_DATA_YEARS] years: a candidate that
    fails validation costs no download. *)
Theorem downloads_follow_validation num_symbols w symbols :
  stock_symbols (provider w) = Ok symbols ->
  Forall has_display_symbol symbols ->
  exists batch w' new,
    run (get_and_cache_data num_symbols) w = (Ok batch, w') /\
    trace w' = trace w ++ new /\
    forall t y,
      EvDownload t y ∈ new ->
      y = HIST_DATA_YEARS /\
      (exists symbol,
         symbol ∈ symbols /\ symbol !! "displaySymbol" = Some t) /\
      exists data info,
        ticker_history (provider w) t = Ok data /\
        df_empty data = false /\
        ticker_get_info (provider w) t = Ok info.
Proof.
  intros Hsym Hdisp.
  destruct (Z_lt_le_dec num_symbols 0) as [Hneg|Hpos].
  - eexists _, _, _. split; [by apply get_and_cache_data_all|].
    split; [done|]. intros t y Hin.
    apply list_elem_of_In in Hin. destruct Hin as [?|Hin]; [done|].
    apply list_elem_of_In in Hin. by apply download_events_validated in Hin.
  - eexists _, _, _. split; [by apply get_and_cache_data_run|].
    split; [done|]. intros t y Hin.
    apply list_elem_of_In in Hin. destruct Hin as [?|Hin]; [done|].
    apply list_elem_of_In in Hin.
    apply download_events_validated in Hin
      as (Hy & (s & Hs & Hst) & Hv).
    split; [done|]. split; [|done].
    exists s. split; [by eapply examined_subseteq|done].
Qed.

Lemma downloads_follow_validation_witness :
  (stock_symbols (provider sample_world) = Ok sample_symbols /\
   Forall has_display_symbol sample_symbols) /\
  exists batch w' new,
    run (get_and_cache_data 2) sample_world = (Ok batch, w') /\
    trace w' = trace sample_world ++ new /\
    forall t y,
      EvDownload t y ∈ new ->
      y = HIST_DATA_YEARS /\
      (exists symbol,
         symbol ∈ sample_symbols /\ symbol !! "displaySymbol" = Some t) /\
      exists data info,
        ticker_history (provider sample_world) t = Ok data /\
        df_empty data = false /\
        ticker_get_info (provider sample_world) t = Ok info.
Proof.
  assert (Hsym : stock_symbols (provider sample_world) = Ok sample_symbols)
    by reflexivity.
  split; [split; [exact Hsym | exact sample_symbols_display] |].
  exact (downloads_follow_validation 2 sample_world sample_symbols Hsym
           sample_symbols_display).
Defined.
